(** * HTTP authentication hook for the mochi MQTT broker

    A shallow embedding of the Go package [auth] (the hook with a
    replaceable decision callback, and its older variant [HTTPAuthHook])
    together with the properties its specification states about it.

    Go values are modelled as follows.
    - A Go [string] and a [[]byte] are sequences of bytes: [string] and
      [list byte]; the conversion [string(b)] is [string_of_list_byte].
    - A pointer or interface that may be [nil] is an [option].
    - [int] status codes are [Z].
    - A method with a pointer receiver that assigns to its receiver
      returns the updated receiver.
    - Effects (logging, the network, user supplied functions) are threaded
      through an explicit state; a nil dereference is the outcome
      [Panic]. *)

From Stdlib Require Import ZArith String List Bool Ascii Lia.
From Stdlib Require Import NArith.
From Stdlib.Strings Require Import Byte.
Import ListNotations.

Local Open Scope string_scope.
Local Open Scope Z_scope.

(* ================================================================= *)
(** ** Values of the Go standard library *)

(** [errors.New(msg)]: an error value, observed through its message. *)
Inductive error : Type :=
| errors_New (msg : string).

Definition Error (e : error) : string :=
  match e with errors_New msg => msg end.

(** [*url.URL], observed through its rendering [u.String()], the only
    use the hook makes of it. *)
Record url_URL : Type := { URL_String : string }.

(** The [io.Reader] handed to [http.NewRequest]: [http.NoBody] or a
    [bytes.Buffer] over the marshalled payload. *)
Inductive io_Reader : Type :=
| http_NoBody
| bytes_NewBuffer (rb : string).

Record http_Request : Type := {
  Method : string;
  URL : string;
  Body : io_Reader
}.

Record http_Response : Type := {
  StatusCode : Z;
  Header : list (string * string);
  ResponseBody : string
}.

Definition http_MethodPost : string := "POST".
Definition http_StatusUnauthorized : Z := 401.
Definition http_StatusForbidden : Z := 403.

(** [strconv.FormatBool]. *)
Definition strconv_FormatBool (b : bool) : string :=
  if b then "true" else "false".

(** The result of running a piece of Go code: it returns, or it panics. *)
Inductive outcome (A : Type) : Type :=
| Ret (a : A)
| Panic.
Arguments Ret {A} a.
Arguments Panic {A}.

(* ================================================================= *)
(** ** The broker's client and packet, as far as the hook reads them *)

(** [mqtt.Client]: its ID and, under [Properties], the username it
    connected with. *)
Module Client.
Record Properties : Type := { Username : list byte }.
Record t : Type := { ID : string; Props : Properties }.
End Client.

(** [packets.Packet]: the parameters of a connect packet. *)
Module Packet.
Record ConnectParams : Type := {
  Username : list byte;
  Password : list byte
}.
Record t : Type := { Connect : ConnectParams }.
End Packet.

(* ================================================================= *)
(** ** Request payloads *)

(** [ClientCheckPOST] is the struct that is sent to the client
    authentication endpoint. *)
Module ClientCheckPOST.
Record t : Type := {
  ClientID : string;   (* json:"clientid" *)
  Password : string;   (* json:"password" *)
  Username : string    (* json:"username" *)
}.
End ClientCheckPOST.

(** [ACLCheckPOST] is the struct that is sent to the acl endpoint. *)
Module ACLCheckPOST.
Record t : Type := {
  Username : string;   (* json:"username" *)
  ClientID : string;   (* json:"clientid" *)
  Topic : string;      (* json:"topic" *)
  ACC : string         (* json:"acc" *)
}.
End ACLCheckPOST.

(** The double quote character, and a quoted JSON member name.  The
    tags of the two payload structs are plain identifiers, which
    [encoding/json] writes between quotes as they are. *)
Definition dquote : string := String (ascii_of_nat 34) EmptyString.

Definition json_name (tag : string) : string := dquote ++ tag ++ dquote.

(** A JSON object as [encoding/json] writes a struct: the members in the
    order of the fields, [name:value] separated by commas, no white
    space. *)
Fixpoint json_members (fields : list (string * string)) : string :=
  match fields with
  | [] => ""
  | [(tag, v)] => json_name tag ++ ":" ++ v
  | (tag, v) :: rest => json_name tag ++ ":" ++ v ++ "," ++ json_members rest
  end.

Definition json_object (fields : list (string * string)) : string :=
  "{" ++ json_members fields ++ "}".

(* ================================================================= *)
(** ** The platform the hook runs on

    What the hook takes from outside the package: the state of the
    outside world (the remote service, a scripted test transport), the
    string encoder of [encoding/json], the checks of [http.NewRequest],
    [http.Client.Do] (which drives the configured round tripper) and
    [http.DefaultTransport]. *)
Class Platform : Type := {
  World : Type;
  (** [encoding/json] on a Go string: the quoted, escaped literal. *)
  json_string : string -> string;
  (** The error [http.NewRequest] reports for a method and a URL string,
      [None] when it builds the request. *)
  NewRequest_err : string -> string -> option error;
  (** The method [Do] of [http.Client], given the [RoundTrip] of the
      client's transport.  It returns a response exactly when its error is nil. *)
  Client_Do :
    (http_Request -> World -> outcome (http_Response + error) * World) ->
    http_Request -> World -> outcome (http_Response + error) * World;
  (** [http.DefaultTransport.RoundTrip]. *)
  DefaultTransport_RoundTrip :
    http_Request -> World -> (http_Response + error) * World
}.

Section Hook.
Context {P : Platform}.

(** A computation over the outside world only. *)
Definition IO (A : Type) : Type := World -> outcome A * World.

(** [http.RoundTripper] values: the platform's default transport, a
    pointer to this package's [Transport], or an implementation supplied
    by the configurer, which is taken to return.  [Transport] represents
    everything required for adding to the roundtripper interface. *)
Inductive http_RoundTripper : Type :=
| http_DefaultTransport
| TransportPtr (st : Transport)
| CustomRoundTripper
    (f : http_Request -> World -> (http_Response + error) * World)
with Transport : Type :=
| Build_Transport (OriginalTransport : option http_RoundTripper).

Definition OriginalTransport (st : Transport) : option http_RoundTripper :=
  match st with Build_Transport o => o end.

(** Dispatch of the interface method [RoundTrip], and
    [func (st *Transport) RoundTrip(r)], which
    returns [st.OriginalTransport.RoundTrip(r)]. *)
Fixpoint RoundTrip (rt : http_RoundTripper) (r : http_Request)
  : IO (http_Response + error) :=
  match rt with
  | http_DefaultTransport =>
      fun w => let (res, w') := DefaultTransport_RoundTrip r w in (Ret res, w')
  | TransportPtr st => Transport_RoundTrip st r
  | CustomRoundTripper f =>
      fun w => let (res, w') := f r w in (Ret res, w')
  end
with Transport_RoundTrip (st : Transport) (r : http_Request)
  : IO (http_Response + error) :=
  match st with
  | Build_Transport (Some orig) => RoundTrip orig r
  | Build_Transport None => fun w => (Panic, w)
  end.

Record http_Client : Type := { Client_Transport : http_RoundTripper }.

(** [NewTransport] creates a new client with any passed in
    round tripper. *)
Definition NewTransport (rt : option http_RoundTripper) : http_Client :=
  let rt :=
    match rt with
    | None => TransportPtr (Build_Transport (Some http_DefaultTransport))
    | Some rt => rt
    end in
  {| Client_Transport := rt |}.

(** The decision function type [func(resp) bool].  A Go function value
    may read and change the outside world (read the response body,
    count calls); it is taken to return. *)
Definition Callback_func : Type := http_Response -> World -> bool * World.

(** [Options] is a struct that contains all the information required to
    configure the http hook.  It is the responsibility of the configurer
    to pass a properly configured round tripper that takes care of other
    requirements such as authentication, timeouts, retries. *)
Record Options : Type := {
  ACLHost : option url_URL;
  SuperUserHost : option url_URL;
  ClientAuthenticationHost : option url_URL;
  RoundTripper : option http_RoundTripper;
  Callback : option Callback_func
}.

(** [Hook] is a hook that makes http requests to an external service.
    The embedded [mqtt.HookBase] contributes the logger, which the broker
    installs before it calls [Init]; what is logged is kept in the
    trace of events below. *)
Record Hook : Type := {
  httpClient : option http_Client;
  aclhost : option url_URL;
  clientauthhost : option url_URL;
  superuserhost : option url_URL;   (* currently unused *)
  callback : option Callback_func
}.

(** [new(Hook)]: every field at its zero value. *)
Definition new_Hook : Hook :=
  {| httpClient := None; aclhost := None; clientauthhost := None;
     superuserhost := None; callback := None |}.

(** Assignments to the fields of the receiver. *)
Definition set_httpClient (h : Hook) (v : option http_Client) : Hook :=
  {| httpClient := v; aclhost := aclhost h;
     clientauthhost := clientauthhost h; superuserhost := superuserhost h;
     callback := callback h |}.

Definition set_aclhost (h : Hook) (v : option url_URL) : Hook :=
  {| httpClient := httpClient h; aclhost := v;
     clientauthhost := clientauthhost h; superuserhost := superuserhost h;
     callback := callback h |}.

Definition set_clientauthhost (h : Hook) (v : option url_URL) : Hook :=
  {| httpClient := httpClient h; aclhost := aclhost h;
     clientauthhost := v; superuserhost := superuserhost h;
     callback := callback h |}.

Definition set_superuserhost (h : Hook) (v : option url_URL) : Hook :=
  {| httpClient := httpClient h; aclhost := aclhost h;
     clientauthhost := clientauthhost h; superuserhost := v;
     callback := callback h |}.

Definition set_callback (h : Hook) (v : option Callback_func) : Hook :=
  {| httpClient := httpClient h; aclhost := aclhost h;
     clientauthhost := clientauthhost h; superuserhost := superuserhost h;
     callback := v |}.

(** The dynamic types a value of type [any] has in this package: the nil
    interface, an [Options] value, a string (as in the package's tests)
    and the two payload structs. *)
Inductive any : Type :=
| any_nil
| any_Options (o : Options)
| any_string (s : string)
| any_ClientCheckPOST (p : ClientCheckPOST.t)
| any_ACLCheckPOST (p : ACLCheckPOST.t).

(* ----------------------------------------------------------------- *)
(** *** Effects *)

(** What a call leaves behind for an observer, in order of occurrence. *)
Inductive Event : Type :=
| LogDebug (msg : string)                 (* h.Log.Debug(msg) *)
| LogError (msg : string) (err : error)   (* h.Log.Error(msg, "error", err) *)
| ClientDo (req : http_Request)           (* h.httpClient.Do(req) is entered *)
| CallbackCall (resp : http_Response).    (* h.callback(resp) is entered *)

Record State : Type := { world : World; trace : list Event }.

Definition M (A : Type) : Type := State -> outcome A * State.

Definition ret {A : Type} (a : A) : M A := fun s => (Ret a, s).

Definition bind {A B : Type} (m : M A) (k : A -> M B) : M B :=
  fun s =>
    match m s with
    | (Ret a, s') => k a s'
    | (Panic, s') => (Panic, s')
    end.

Definition panic {A : Type} : M A := fun s => (Panic, s).

Definition emit (e : Event) : M unit :=
  fun s => (Ret tt, {| world := world s; trace := trace s ++ [e] |}).

Definition liftIO {A : Type} (io : IO A) : M A :=
  fun s =>
    let (r, w') := io (world s) in
    (r, {| world := w'; trace := trace s |}).

(** Dereference of a pointer that may be nil. *)
Definition deref {A : Type} (p : option A) : M A :=
  match p with
  | Some a => ret a
  | None => panic
  end.

Notation "x <- m ;; k" := (bind m (fun x => k))
  (at level 61, m at next level, right associativity).
Notation "m ;;; k" := (bind m (fun _ => k))
  (at level 61, right associativity).

Definition Log_Debug (msg : string) : M unit := emit (LogDebug msg).
Definition Log_Error (msg : string) (err : error) : M unit :=
  emit (LogError msg err).

(* ----------------------------------------------------------------- *)
(** *** Library calls made by the hook *)

(** [json.Marshal].  A struct is written as an object whose members are
    its fields under their tags, in the order of declaration; a struct
    with a field of function type is refused. *)
Definition json_Marshal (v : any) : string + error :=
  match v with
  | any_nil => inl "null"
  | any_string s => inl (json_string s)
  | any_ClientCheckPOST p =>
      inl (json_object
             [("clientid", json_string (ClientCheckPOST.ClientID p));
              ("password", json_string (ClientCheckPOST.Password p));
              ("username", json_string (ClientCheckPOST.Username p))])
  | any_ACLCheckPOST p =>
      inl (json_object
             [("username", json_string (ACLCheckPOST.Username p));
              ("clientid", json_string (ACLCheckPOST.ClientID p));
              ("topic", json_string (ACLCheckPOST.Topic p));
              ("acc", json_string (ACLCheckPOST.ACC p))])
  | any_Options _ => inr (errors_New "json: unsupported type: func")
  end.

(** [http.NewRequest(method, url, body)]; an empty method means GET. *)
Definition http_NewRequest (method url : string) (body : io_Reader)
  : http_Request + error :=
  match NewRequest_err method url with
  | Some err => inr err
  | None =>
      inl {| Method := if String.eqb method "" then "GET" else method;
             URL := url;
             Body := body |}
  end.

(** [c.Do(req)] on the client built by [NewTransport]. *)
Definition http_Client_Do (c : http_Client) (req : http_Request)
  : M (http_Response + error) :=
  emit (ClientDo req) ;;;
  liftIO (Client_Do (RoundTrip (Client_Transport c)) req).

(* ----------------------------------------------------------------- *)
(** *** The hook *)

(** [ID] returns the ID of the hook. *)
Definition ID (h : Hook) : string := "http-auth-hook".

Definition validateConfig (config : Options) : bool :=
  match ACLHost config, ClientAuthenticationHost config with
  | None, _ => false
  | _, None => false
  | Some _, Some _ => true
  end.

Definition defaultCallback : Callback_func :=
  fun resp w => ((200 <=? StatusCode resp) && (StatusCode resp <? 300), w).

(** [Init] initializes the hook with the given config.  It returns the
    receiver as the call leaves it, and the error. *)
Definition Init (h : Hook) (config : any) : M (Hook * option error) :=
  match config with
  | any_nil => ret (h, Some (errors_New "nil config"))
  | any_Options authHookConfig =>
      if negb (validateConfig authHookConfig) then
        ret (h, Some (errors_New "hostname configs failed validation"))
      else
        let h := set_callback h (Some defaultCallback) in
        h <- match Callback authHookConfig with
             | Some cb =>
                 Log_Debug
                   "replacing default callback with one included in options" ;;;
                 ret (set_callback h (Some cb))
             | None => ret h
             end ;;
        let h := set_httpClient h
                   (Some (NewTransport (RoundTripper authHookConfig))) in
        let h := set_aclhost h (ACLHost authHookConfig) in
        let h := set_clientauthhost h
                   (ClientAuthenticationHost authHookConfig) in
        let h := set_superuserhost h (SuperUserHost authHookConfig) in
        ret (h, None)
  | _ => ret (h, Some (errors_New "improper config"))
  end.

Definition makeRequest (h : Hook) (requestType : string)
    (url : option url_URL) (payload : any) : M (http_Response + error) :=
  let buffer : io_Reader + error :=
    match payload with
    | any_nil => inl http_NoBody
    | _ =>
        match json_Marshal payload with
        | inr err => inr err
        | inl rb => inl (bytes_NewBuffer rb)
        end
    end in
  match buffer with
  | inr err => ret (inr err)
  | inl buffer =>
      u <- deref url ;;
      match http_NewRequest requestType (URL_String u) buffer with
      | inr err => ret (inr err)
      | inl req =>
          c <- deref (httpClient h) ;;
          r <- http_Client_Do c req ;;
          match r with
          | inr err => ret (inr err)
          | inl resp => ret (inl resp)
          end
      end
  end.

(** The call [h.callback(resp)]. *)
Definition call_callback (h : Hook) (resp : http_Response) : M bool :=
  cb <- deref (callback h) ;;
  emit (CallbackCall resp) ;;;
  liftIO (fun w => let (b, w') := cb resp w in (Ret b, w')).

(** The payload literal of [OnConnectAuthenticate]. *)
Definition connect_payload (cl : Client.t) (pk : Packet.t)
  : ClientCheckPOST.t :=
  {| ClientCheckPOST.ClientID := Client.ID cl;
     ClientCheckPOST.Password :=
       string_of_list_byte (Packet.Password (Packet.Connect pk));
     ClientCheckPOST.Username :=
       string_of_list_byte (Packet.Username (Packet.Connect pk)) |}.

(** The payload literal of [OnACLCheck]. *)
Definition acl_payload (cl : Client.t) (topic : string) (write : bool)
  : ACLCheckPOST.t :=
  {| ACLCheckPOST.ClientID := Client.ID cl;
     ACLCheckPOST.Username :=
       string_of_list_byte (Client.Username (Client.Props cl));
     ACLCheckPOST.Topic := topic;
     ACLCheckPOST.ACC := strconv_FormatBool write |}.

(** [OnConnectAuthenticate] is called when a client attempts to connect
    to the server. *)
Definition OnConnectAuthenticate (h : Hook) (cl : Client.t) (pk : Packet.t)
  : M bool :=
  let payload := connect_payload cl pk in
  r <- makeRequest h http_MethodPost (clientauthhost h)
         (any_ClientCheckPOST payload) ;;
  match r with
  | inr err =>
      Log_Error "error occurred while making http request" err ;;;
      ret false
  | inl resp => call_callback h resp
  end.

(** [OnACLCheck] is called when a client attempts to publish or subscribe
    to a topic. *)
Definition OnACLCheck (h : Hook) (cl : Client.t) (topic : string)
    (write : bool) : M bool :=
  let payload := acl_payload cl topic write in
  r <- makeRequest h http_MethodPost (aclhost h) (any_ACLCheckPOST payload) ;;
  match r with
  | inr err =>
      Log_Error "error occurred while making http request" err ;;;
      ret false
  | inl resp => call_callback h resp
  end.

(* ----------------------------------------------------------------- *)
(** *** The events the hook provides *)

(** [bytes.HasPrefix], [bytes.Index] (the index of the first instance of
    [sep] in [s], or -1) and [bytes.Contains]. *)
Fixpoint bytes_HasPrefix (s prefix : list byte) : bool :=
  match prefix, s with
  | [], _ => true
  | _ :: _, [] => false
  | p :: prefix', x :: s' => Byte.eqb x p && bytes_HasPrefix s' prefix'
  end.

Fixpoint bytes_Index (s sep : list byte) : Z :=
  if bytes_HasPrefix s sep then 0
  else
    match s with
    | [] => -1
    | _ :: s' =>
        let i := bytes_Index s' sep in
        if i =? -1 then -1 else i + 1
    end.

Definition bytes_Contains (b subslice : list byte) : bool :=
  negb (bytes_Index b subslice =? -1).

(** The broker's event bytes [mqtt.OnACLCheck] and
    [mqtt.OnConnectAuthenticate], declared by the broker. *)
Variables (mqtt_OnACLCheck mqtt_OnConnectAuthenticate : byte).

(** [Provides] returns whether or not the hook provides the given
    hook. *)
Definition Provides (h : Hook) (b : byte) : bool :=
  bytes_Contains [mqtt_OnACLCheck; mqtt_OnConnectAuthenticate] [b].

End Hook.

Notation "x <- m ;; k" := (bind m (fun x => k))
  (at level 61, m at next level, right associativity).
Notation "m ;;; k" := (bind m (fun _ => k))
  (at level 61, right associativity).

(* ================================================================= *)
(** ** The older variant of the hook

    [HTTPAuthHook] has no decision callback: both entry points test the
    status code themselves.  Its payload structs, [validateConfig],
    [NewTransport] and [Transport] are declared as in the package above.
    Its logger is a zerolog logger: [h.Log.Error().Err(err)] builds a log
    event that is never sent, [h.Log.Err(err).Msg(msg)] writes one. *)
Module Legacy.
Section Hook.
Context {P : Platform}.

Record HTTPAuthHook : Type := {
  httpclient : option http_Client;
  aclhost : option url_URL;
  clientauthhost : option url_URL;
  superuserhost : option url_URL   (* currently unused *)
}.

Definition makeRequest (h : HTTPAuthHook) (requestType : string)
    (url : option url_URL) (payload : any) : M (http_Response + error) :=
  let buffer : M (io_Reader + error) :=
    match payload with
    | any_nil => ret (inl http_NoBody)
    | _ =>
        match json_Marshal payload with
        | inr err => Log_Error "" err ;;; ret (inr err)
        | inl rb => ret (inl (bytes_NewBuffer rb))
        end
    end in
  buffer <- buffer ;;
  match buffer with
  | inr err => ret (inr err)
  | inl buffer =>
      u <- deref url ;;
      match http_NewRequest requestType (URL_String u) buffer with
      | inr err => ret (inr err)
      | inl req =>
          c <- deref (httpclient h) ;;
          r <- http_Client_Do c req ;;
          match r with
          | inr err => ret (inr err)
          | inl resp => ret (inl resp)
          end
      end
  end.

Definition OnConnectAuthenticate (h : HTTPAuthHook) (cl : Client.t)
    (pk : Packet.t) : M bool :=
  let payload := connect_payload cl pk in
  r <- makeRequest h http_MethodPost (clientauthhost h)
         (any_ClientCheckPOST payload) ;;
  match r with
  | inr err => ret false
  | inl resp =>
      (* Block on proper 4xx response *)
      if (StatusCode resp =? http_StatusUnauthorized)
         || (StatusCode resp =? http_StatusForbidden)
      then ret false
      else ret ((200 <=? StatusCode resp) && (StatusCode resp <? 300))
  end.

Definition OnACLCheck (h : HTTPAuthHook) (cl : Client.t) (topic : string)
    (write : bool) : M bool :=
  let payload := acl_payload cl topic write in
  r <- makeRequest h http_MethodPost (aclhost h) (any_ACLCheckPOST payload) ;;
  match r with
  | inr err => ret false
  | inl resp =>
      if (StatusCode resp =? http_StatusUnauthorized)
         || (StatusCode resp =? http_StatusForbidden)
      then ret false
      else ret ((200 <=? StatusCode resp) && (StatusCode resp <? 300))
  end.

Record HTTPAuthHookConfig : Type := {
  ACLHost : option url_URL;
  SuperUserHost : option url_URL;
  ClientAuthenticationHost : option url_URL;   (* currently unused *)
  RoundTripper : option http_RoundTripper
}.

(** The dynamic types of the config handed to [Init]: the nil interface,
    a [HTTPAuthHookConfig] value, or a value of another type. *)
Inductive config_any : Type :=
| config_nil
| config_HTTPAuthHookConfig (c : HTTPAuthHookConfig)
| config_string (s : string).

Definition validateConfig (config : HTTPAuthHookConfig) : bool :=
  match ACLHost config, ClientAuthenticationHost config with
  | None, _ => false
  | _, None => false
  | Some _, Some _ => true
  end.

(** [Init] returns the receiver as the call leaves it, and the error; it
    logs nothing. *)
Definition Init (h : HTTPAuthHook) (config : config_any)
  : HTTPAuthHook * option error :=
  match config with
  | config_nil => (h, Some (errors_New "nil config"))
  | config_HTTPAuthHookConfig authHookConfig =>
      if negb (validateConfig authHookConfig) then
        (h, Some (errors_New "hostname configs failed validation"))
      else
        let h := {| httpclient :=
                      Some (NewTransport (RoundTripper authHookConfig));
                    aclhost := aclhost h;
                    clientauthhost := clientauthhost h;
                    superuserhost := superuserhost h |} in
        let h := {| httpclient := httpclient h;
                    aclhost := ACLHost authHookConfig;
                    clientauthhost := clientauthhost h;
                    superuserhost := superuserhost h |} in
        let h := {| httpclient := httpclient h;
                    aclhost := aclhost h;
                    clientauthhost := ClientAuthenticationHost authHookConfig;
                    superuserhost := superuserhost h |} in
        let h := {| httpclient := httpclient h;
                    aclhost := aclhost h;
                    clientauthhost := clientauthhost h;
                    superuserhost := SuperUserHost authHookConfig |} in
        (h, None)
  | config_string _ => (h, Some (errors_New "improper config"))
  end.

Variables (mqtt_OnACLCheck mqtt_OnConnectAuthenticate : byte).

Definition Provides (h : HTTPAuthHook) (b : byte) : bool :=
  bytes_Contains [mqtt_OnACLCheck; mqtt_OnConnectAuthenticate] [b].

End Hook.
End Legacy.

(* ================================================================= *)
(** ** Observing a call *)

Section Observers.
Context {P : Platform}.

(** The events a call added to the trace, given the states before and
    after it. *)
Definition new_events (s s' : State) : list Event :=
  skipn (length (trace s)) (trace s').

(** The responses the decision function was called on. *)
Definition callback_calls (evs : list Event) : list http_Response :=
  flat_map (fun e => match e with CallbackCall resp => [resp] | _ => [] end)
           evs.

(** The requests handed to the HTTP client. *)
Definition requests_sent (evs : list Event) : list http_Request :=
  flat_map (fun e => match e with ClientDo req => [req] | _ => [] end) evs.

(** The state after a further event. *)
Definition logged (s : State) (e : Event) : State :=
  {| world := world s; trace := trace s ++ [e] |}.

End Observers.

(* ================================================================= *)
(** ** A platform to run the hook on

    The outside world is the list of requests that reached a transport;
    nothing listens behind the default transport; strings are encoded by
    quoting them; the client hands each request to its transport once. *)
Definition recording : Platform :=
  {| World := list http_Request;
     json_string := fun s => dquote ++ s ++ dquote;
     NewRequest_err := fun _ _ => None;
     Client_Do := fun rt req => rt req;
     DefaultTransport_RoundTrip := fun r w =>
       (inr (errors_New "dial tcp: connection refused"), (w ++ [r])%list) |}.

(** A transport that records the request and answers with a status. *)
Definition answering (status : Z) : @http_RoundTripper recording :=
  @CustomRoundTripper recording
    (fun r w =>
       (inl {| StatusCode := status; Header := []; ResponseBody := "" |},
        (w ++ [r])%list)).

(** A transport that records the request and fails. *)
Definition failing (msg : string) : @http_RoundTripper recording :=
  @CustomRoundTripper recording
    (fun r w => (inr (errors_New msg), (w ++ [r])%list)).

Definition stringToURL (s : string) : option url_URL :=
  Some {| URL_String := s |}.

(** The configuration of the package's tests, over a given transport and
    decision function. *)
Definition test_Options (rt : option (@http_RoundTripper recording))
    (cb : option (@Callback_func recording)) : @Options recording :=
  {| ACLHost := stringToURL "http://aclhost.com";
     SuperUserHost := None;
     ClientAuthenticationHost :=
       stringToURL "http://clientauthenticationhost.com";
     RoundTripper := rt;
     Callback := cb |}.

Definition test_Client : Client.t :=
  {| Client.ID := "default_client_id";
     Client.Props := {| Client.Username := [] |} |}.

Definition test_Packet : Packet.t :=
  {| Packet.Connect := {| Packet.Username := []; Packet.Password := [] |} |}.

Definition start : @State recording := @Build_State recording [] [].

(** A client and a connect packet with credentials. *)
Definition alice : Client.t :=
  {| Client.ID := "sensor-7";
     Client.Props := {| Client.Username := list_byte_of_string "alice" |} |}.

Definition alice_connect : Packet.t :=
  {| Packet.Connect :=
       {| Packet.Username := list_byte_of_string "alice";
          Packet.Password := list_byte_of_string " s3cret " |} |}.

(** A decision function that denies whatever the response. *)
Definition deny_all : @Callback_func recording := fun _ w => (false, w).

Definition response (status : Z) : http_Response :=
  {| StatusCode := status; Header := []; ResponseBody := "" |}.

(** [Options{}]. *)
Definition empty_Options : @Options recording :=
  {| ACLHost := None; SuperUserHost := None;
     ClientAuthenticationHost := None; RoundTripper := None;
     Callback := None |}.

(** The hook a successful [Init] leaves, for a valid configuration. *)
Definition initialized {P : Platform} (o : Options) : Hook :=
  {| httpClient := Some (NewTransport (RoundTripper o));
     aclhost := ACLHost o;
     clientauthhost := ClientAuthenticationHost o;
     superuserhost := SuperUserHost o;
     callback := Some match Callback o with
                      | Some cb => cb
                      | None => defaultCallback
                      end |}.

(** The value a computation returned, [d] if it panicked. *)
Definition returned {A : Type} (d : A) (r : outcome A) : A :=
  match r with
  | Ret a => a
  | Panic => d
  end.

(** The hook of the package's tests after [Init]. *)
Definition test_Hook (rt : option (@http_RoundTripper recording))
    (cb : option (@Callback_func recording)) : @Hook recording :=
  initialized (test_Options rt cb).

(** The options [o] with another superuser host. *)
Definition with_SuperUserHost {P : Platform} (o : Options)
    (v : option url_URL) : Options :=
  {| ACLHost := ACLHost o;
     SuperUserHost := v;
     ClientAuthenticationHost := ClientAuthenticationHost o;
     RoundTripper := RoundTripper o;
     Callback := Callback o |}.

(** A platform as [recording] on which [http.NewRequest] refuses a
    method with a space in it. *)
Fixpoint has_space (m : string) : bool :=
  match m with
  | EmptyString => false
  | String c m' => Ascii.eqb c " " || has_space m'
  end.

Definition checking : Platform :=
  {| World := list http_Request;
     json_string := fun s => dquote ++ s ++ dquote;
     NewRequest_err := fun m _ =>
       if has_space m then Some (errors_New "net/http: invalid method")
       else None;
     Client_Do := fun rt req => rt req;
     DefaultTransport_RoundTrip := fun r w =>
       (inr (errors_New "dial tcp: connection refused"), (w ++ [r])%list) |}.

Definition checking_start : @State checking := @Build_State checking [] [].

(* ================================================================= *)
(** ** The string encoder of encoding/json

    [json.Marshal] writes a Go string with [appendString] (HTML escaping
    on), which reads the string rune by rune with
    [utf8.DecodeRuneInString].  Bytes are read as numbers with
    [N_of_ascii]. *)

(** [utf8.RuneError], U+FFFD. *)
Definition utf8_RuneError : N := 0xFFFD%N.

(** The table [first] of package utf8 for a leading byte of a sequence
    of several bytes: the size of the sequence and the range accepted
    for its second byte; [None] for a byte that leads no sequence. *)
Definition utf8_first (s0 : N) : option (nat * (N * N)) :=
  (if s0 <? 0xC2 then None
   else if s0 <? 0xE0 then Some (2%nat, (0x80, 0xBF))
   else if s0 =? 0xE0 then Some (3%nat, (0xA0, 0xBF))
   else if s0 <? 0xED then Some (3%nat, (0x80, 0xBF))
   else if s0 =? 0xED then Some (3%nat, (0x80, 0x9F))
   else if s0 <? 0xF0 then Some (3%nat, (0x80, 0xBF))
   else if s0 =? 0xF0 then Some (4%nat, (0x90, 0xBF))
   else if s0 <? 0xF4 then Some (4%nat, (0x80, 0xBF))
   else if s0 =? 0xF4 then Some (4%nat, (0x80, 0x8F))
   else None)%N.

(** The runes of sequences of two, three and four bytes. *)
Definition utf8_rune2 (s0 s1 : N) : N :=
  N.lor (N.shiftl (N.land s0 0x1F) 6) (N.land s1 0x3F).

Definition utf8_rune3 (s0 s1 s2 : N) : N :=
  N.lor (N.lor (N.shiftl (N.land s0 0x0F) 12) (N.shiftl (N.land s1 0x3F) 6))
        (N.land s2 0x3F).

Definition utf8_rune4 (s0 s1 s2 s3 : N) : N :=
  N.lor (N.lor (N.lor (N.shiftl (N.land s0 0x07) 18)
                      (N.shiftl (N.land s1 0x3F) 12))
               (N.shiftl (N.land s2 0x3F) 6))
        (N.land s3 0x3F).

(** [utf8.DecodeRuneInString]: the first rune of [s] and its width in
    bytes; [(RuneError, 0)] for the empty string and [(RuneError, 1)]
    for a byte that begins no valid sequence. *)
Definition utf8_DecodeRuneInString (s : string) : N * nat :=
  match s with
  | EmptyString => (utf8_RuneError, 0%nat)
  | String c0 r0 =>
      let s0 := N_of_ascii c0 in
      if (s0 <? 0x80)%N then (s0, 1%nat)
      else
        match utf8_first s0 with
        | None => (utf8_RuneError, 1%nat)
        | Some (sz, (lo, hi)) =>
            if (String.length s <? sz)%nat then (utf8_RuneError, 1%nat)
            else
              match r0 with
              | EmptyString => (utf8_RuneError, 1%nat)
              | String c1 r1 =>
                  let s1 := N_of_ascii c1 in
                  if ((s1 <? lo) || (hi <? s1))%N then (utf8_RuneError, 1%nat)
                  else if (sz <=? 2)%nat then (utf8_rune2 s0 s1, 2%nat)
                  else
                    match r1 with
                    | EmptyString => (utf8_RuneError, 1%nat)
                    | String c2 r2 =>
                        let s2 := N_of_ascii c2 in
                        if ((s2 <? 0x80) || (0xBF <? s2))%N
                        then (utf8_RuneError, 1%nat)
                        else if (sz <=? 3)%nat
                        then (utf8_rune3 s0 s1 s2, 3%nat)
                        else
                          match r2 with
                          | EmptyString => (utf8_RuneError, 1%nat)
                          | String c3 r3 =>
                              let s3 := N_of_ascii c3 in
                              if ((s3 <? 0x80) || (0xBF <? s3))%N
                              then (utf8_RuneError, 1%nat)
                              else (utf8_rune4 s0 s1 s2 s3, 4%nat)
                          end
                    end
              end
        end
  end.

(** What is left of [rest], the string after a leading byte, once a
    rune of [size] bytes has been read. *)
Definition after_rune (size : nat) (rest : string) : string :=
  match size, rest with
  | 2%nat, String _ r2 => r2
  | 3%nat, String _ (String _ r3) => r3
  | 4%nat, String _ (String _ (String _ r4)) => r4
  | _, _ => rest
  end.

(** [utf8.ValidString]: every rune of the string decodes. *)
Fixpoint utf8_ValidString (s : string) : bool :=
  match s with
  | EmptyString => true
  | String c rest =>
      if (N_of_ascii c <? 0x80)%N then utf8_ValidString rest
      else
        let (r, size) := utf8_DecodeRuneInString s in
        if (r =? utf8_RuneError)%N && (size =? 1)%nat then false
        else
          match size, rest with
          | 2%nat, String _ r2 => utf8_ValidString r2
          | 3%nat, String _ (String _ r3) => utf8_ValidString r3
          | 4%nat, String _ (String _ (String _ r4)) => utf8_ValidString r4
          | _, _ => utf8_ValidString rest
          end
  end.

(** The digits [hex] of package json. *)
Definition json_hex (n : N) : ascii :=
  match String.get (N.to_nat n) "0123456789abcdef" with
  | Some c => c
  | None => "0"%char
  end.

(** The table [htmlSafeSet]: the ASCII bytes written as they are, that
    is all from the space on but the double quote, the ampersand, the
    angle brackets and the backslash. *)
Definition json_htmlSafeSet (b : N) : bool :=
  ((0x20 <=? b) && (b <? 0x80)
   && negb (b =? 0x22) && negb (b =? 0x26) && negb (b =? 0x3C)
   && negb (b =? 0x3E) && negb (b =? 0x5C))%N.

(** The escape of an ASCII byte that is not written as it is.  Backspace
    and form feed have short escapes from Go 1.22 on ([short] true) and
    the six character escape before. *)
Definition json_escape (short : bool) (c : ascii) : string :=
  let b := N_of_ascii c in
  if ((b =? 0x5C) || (b =? 0x22))%N then String "\"%char (String c EmptyString)
  else if short && (b =? 0x08)%N then "\b"
  else if short && (b =? 0x0C)%N then "\f"
  else if (b =? 0x0A)%N then "\n"
  else if (b =? 0x0D)%N then "\r"
  else if (b =? 0x09)%N then "\t"
  else
    "\u00" ++ String (json_hex (N.shiftr b 4))
                (String (json_hex (N.land b 0xF)) EmptyString).

(** The loop of [appendString] from a position on, up to the closing
    quote. *)
Fixpoint json_appendString_from (short : bool) (src : string) : string :=
  match src with
  | EmptyString => dquote
  | String c rest =>
      if (N_of_ascii c <? 0x80)%N then
        (if json_htmlSafeSet (N_of_ascii c) then String c EmptyString
         else json_escape short c)
        ++ json_appendString_from short rest
      else
        let (r, size) := utf8_DecodeRuneInString src in
        if (r =? utf8_RuneError)%N && (size =? 1)%nat then
          ("\u" ++ "fffd") ++ json_appendString_from short rest
        else
          (if ((r =? 0x2028) || (r =? 0x2029))%N
           then "\u202" ++ String (json_hex (N.land r 0xF)) EmptyString
           else substring 0 size src)
          ++ match size, rest with
             | 2%nat, String _ r2 => json_appendString_from short r2
             | 3%nat, String _ (String _ r3) => json_appendString_from short r3
             | 4%nat, String _ (String _ (String _ r4)) =>
                 json_appendString_from short r4
             | _, _ => json_appendString_from short rest
             end
  end.

(** [appendString]: the JSON string literal of a Go string. *)
Definition json_appendString (short : bool) (src : string) : string :=
  dquote ++ json_appendString_from short src.

(* ----------------------------------------------------------------- *)
(** *** What a JSON string literal denotes *)

(** The value of a hexadecimal digit. *)
Definition hex_value (c : ascii) : option N :=
  let b := N_of_ascii c in
  (if (0x30 <=? b) && (b <=? 0x39) then Some (b - 0x30)
   else if (0x61 <=? b) && (b <=? 0x66) then Some (b - 0x61 + 10)
   else if (0x41 <=? b) && (b <=? 0x46) then Some (b - 0x41 + 10)
   else None)%N.

Definition hex4_value (h1 h2 h3 h4 : ascii) : option N :=
  match hex_value h1, hex_value h2, hex_value h3, hex_value h4 with
  | Some a, Some b, Some c, Some d => Some (((a * 16 + b) * 16 + c) * 16 + d)%N
  | _, _, _, _ => None
  end.

(** The UTF-8 encoding of a code point below U+10000 that is not a
    surrogate. *)
Definition utf8_encode (r : N) : string :=
  (if r <? 0x80 then String (ascii_of_N r) EmptyString
   else if r <? 0x800 then
     String (ascii_of_N (N.lor 0xC0 (N.shiftr r 6)))
       (String (ascii_of_N (N.lor 0x80 (N.land r 0x3F))) EmptyString)
   else
     String (ascii_of_N (N.lor 0xE0 (N.shiftr r 12)))
       (String (ascii_of_N (N.lor 0x80 (N.land (N.shiftr r 6) 0x3F)))
          (String (ascii_of_N (N.lor 0x80 (N.land r 0x3F))) EmptyString)))%N.

(** The string the characters of a JSON string literal denote, read
    from after the opening quote (RFC 8259): an escape stands for its
    character, in UTF-8, and any other byte for itself.  [None] for
    what is no string literal: a missing closing quote, text after it, a
    raw control character, an unknown escape; and for the escape of a
    surrogate, which is left out here. *)
Fixpoint json_unescape (s : string) : option string :=
  match s with
  | EmptyString => None
  | String c rest =>
      let b := N_of_ascii c in
      if (b =? 0x22)%N then
        match rest with
        | EmptyString => Some EmptyString
        | String _ _ => None
        end
      else if (b =? 0x5C)%N then
        match rest with
        | EmptyString => None
        | String e rest1 =>
            let simple (x : N) :=
              match json_unescape rest1 with
              | Some t => Some (String (ascii_of_N x) t)
              | None => None
              end in
            let k := N_of_ascii e in
            if (k =? 0x22)%N then simple 0x22%N
            else if (k =? 0x5C)%N then simple 0x5C%N
            else if (k =? 0x2F)%N then simple 0x2F%N
            else if (k =? 0x62)%N then simple 0x08%N
            else if (k =? 0x66)%N then simple 0x0C%N
            else if (k =? 0x6E)%N then simple 0x0A%N
            else if (k =? 0x72)%N then simple 0x0D%N
            else if (k =? 0x74)%N then simple 0x09%N
            else if (k =? 0x75)%N then
              match rest1 with
              | String h1 (String h2 (String h3 (String h4 rest2))) =>
                  match hex4_value h1 h2 h3 h4 with
                  | Some r =>
                      if ((0xD800 <=? r) && (r <=? 0xDFFF))%N then None
                      else
                        match json_unescape rest2 with
                        | Some t => Some (utf8_encode r ++ t)
                        | None => None
                        end
                  | None => None
                  end
              | _ => None
              end
            else None
        end
      else if (b <? 0x20)%N then None
      else
        match json_unescape rest with
        | Some t => Some (String c t)
        | None => None
        end
  end.

Definition json_string_value (literal : string) : option string :=
  match literal with
  | String c rest =>
      if (N_of_ascii c =? 0x22)%N then json_unescape rest else None
  | EmptyString => None
  end.

(** A string of ASCII bytes that [appendString] writes as they are. *)
Fixpoint json_plain (s : string) : bool :=
  match s with
  | EmptyString => true
  | String c rest => json_htmlSafeSet (N_of_ascii c) && json_plain rest
  end.

(** Every byte, for properties of bytes checked by enumeration. *)
Definition all_ascii : list ascii := map ascii_of_nat (seq 0 256).

Definition forall_ascii (f : ascii -> bool) : bool := forallb f all_ascii.

(** A continuation byte of UTF-8. *)
Definition continuation (c : ascii) : bool :=
  ((0x80 <=? N_of_ascii c) && (N_of_ascii c <=? 0xBF))%N.

(** The runes [appendString] escapes: U+2028 and U+2029. *)
Definition is_separator (r : N) : bool := ((r =? 0x2028) || (r =? 0x2029))%N.

(** The platform [recording] with the string encoder of Go 1.22. *)
Definition golang : Platform :=
  {| World := list http_Request;
     json_string := json_appendString true;
     NewRequest_err := fun _ _ => None;
     Client_Do := fun rt req => rt req;
     DefaultTransport_RoundTrip := fun r w =>
       (inr (errors_New "dial tcp: connection refused"), (w ++ [r])%list) |}.

Definition golang_start : @State golang := @Build_State golang [] [].

(** The hook of the package's tests on [golang], over a transport that
    records the request and answers 200. *)
Definition golang_Hook : @Hook golang :=
  initialized
    {| ACLHost := stringToURL "http://aclhost.com";
       SuperUserHost := None;
       ClientAuthenticationHost :=
         stringToURL "http://clientauthenticationhost.com";
       RoundTripper :=
         Some (@CustomRoundTripper golang
                 (fun r w => (inl (response 200), (w ++ [r])%list)));
       Callback := None |}.

(** A connect packet whose password is the one byte [b]. *)
Definition binary_connect (b : byte) : Packet.t :=
  {| Packet.Connect :=
       {| Packet.Username := list_byte_of_string "alice";
          Packet.Password := [b] |} |}.

(** A client whose username is the one byte [b]. *)
Definition binary_client (b : byte) : Client.t :=
  {| Client.ID := "sensor-7";
     Client.Props := {| Client.Username := [b] |} |}.

(** Credentials in valid UTF-8 that the encoder escapes: a quote, a
    backslash, a line feed, an angle bracket, a letter of two bytes and
    the line separator. *)
Definition escaped_bytes : list byte :=
  [x70; x22; x5c; x0a; x3c; xc3; xa9; xe2; x80; xa8].

Definition escaped_connect : Packet.t :=
  {| Packet.Connect :=
       {| Packet.Username := escaped_bytes;
          Packet.Password := escaped_bytes |} |}.

Definition escaped_client : Client.t :=
  {| Client.ID := "sensor-7";
     Client.Props := {| Client.Username := escaped_bytes |} |}.

(* ================================================================= *)
(** ** Properties *)

Section Properties.
Context {P : Platform}.

(** Unfolding of the monad's operations, in the goal and in a
    hypothesis. *)
Ltac run :=
  cbv beta iota zeta delta
    [bind ret panic emit liftIO deref Log_Error Log_Debug logged
     call_callback http_Client_Do];
  simpl.

Ltac run_in H :=
  cbv beta iota zeta delta
    [bind ret panic emit liftIO deref Log_Error Log_Debug logged
     call_callback http_Client_Do] in H;
  simpl in H.

Lemma new_events_app (s s' : State) (evs : list Event) :
  trace s' = (trace s ++ evs)%list -> new_events s s' = evs.
Proof.
  intros E. unfold new_events. rewrite E.
  rewrite skipn_app, skipn_all, Nat.sub_diag. reflexivity.
Qed.

Lemma new_events_same (s s' : State) :
  trace s' = trace s -> new_events s s' = [].
Proof.
  intros E. apply new_events_app. rewrite E, app_nil_r. reflexivity.
Qed.

(** The send step adds at most one event, the request it hands to the
    client, whatever its outcome. *)
Lemma makeRequest_trace (h : Hook) (m : string) (u : option url_URL)
    (p : any) (s s1 : State) (r : outcome (http_Response + error)) :
  makeRequest h m u p s = (r, s1) ->
  trace s1 = trace s \/
  exists req, trace s1 = (trace s ++ [ClientDo req])%list.
Proof.
  unfold makeRequest. intros E.
  destruct (match p with
            | any_nil => inl http_NoBody
            | _ => match json_Marshal p with
                   | inl rb => inl (bytes_NewBuffer rb)
                   | inr err => inr err
                   end
            end) as [buffer | err].
  2: { run_in E. inversion E. now left. }
  destruct u as [u |].
  2: { run_in E. inversion E. now left. }
  run_in E.
  destruct (http_NewRequest m (URL_String u) buffer) as [req | err].
  2: { inversion E. now left. }
  destruct (httpClient h) as [c |].
  2: { inversion E. now left. }
  run_in E.
  destruct (Client_Do (RoundTrip (Client_Transport c)) req (world s))
    as [[[resp | err] |] w'];
    inversion E; right; exists req; reflexivity.
Qed.

Lemma makeRequest_no_callback (h : Hook) (m : string)
    (u : option url_URL) (p : any) (s s1 s' : State)
    (r : outcome (http_Response + error)) (e : Event) :
  makeRequest h m u p s = (r, s1) ->
  trace s' = (trace s1 ++ [e])%list ->
  callback_calls (new_events s s') = callback_calls [e].
Proof.
  intros E T'. destruct (makeRequest_trace _ _ _ _ _ _ _ E) as [T | [req T]].
  - rewrite (new_events_app s s' [e]); [reflexivity |].
    now rewrite T', T.
  - rewrite (new_events_app s s' [ClientDo req; e]); [reflexivity |].
    rewrite T', T, <- app_assoc. reflexivity.
Qed.

(** What an entry point does once the send step has failed. *)
Lemma deny_on_error (m : M (http_Response + error)) (k : http_Response -> M bool)
    (s s1 : State) (err : error) :
  m s = (Ret (inr err), s1) ->
  (r <- m ;;
   match r with
   | inr err =>
       Log_Error "error occurred while making http request" err ;;;
       ret false
   | inl resp => k resp
   end) s
  = (Ret false,
     logged s1 (LogError "error occurred while making http request" err)).
Proof.
  intros E. unfold bind at 1. rewrite E. reflexivity.
Qed.

(** What an entry point does once the send step has returned a
    response. *)
Lemma decide_on_response (h : Hook) (m : M (http_Response + error))
    (cb : Callback_func) (s s1 : State) (resp : http_Response) :
  callback h = Some cb ->
  m s = (Ret (inl resp), s1) ->
  (r <- m ;;
   match r with
   | inr err =>
       Log_Error "error occurred while making http request" err ;;;
       ret false
   | inl resp => call_callback h resp
   end) s
  = (Ret (fst (cb resp (world s1))),
     {| world := snd (cb resp (world s1));
        trace := trace s1 ++ [CallbackCall resp] |}).
Proof.
  intros C E. unfold bind at 1. rewrite E.
  unfold call_callback. rewrite C. run.
  destruct (cb resp (world s1)) as [b w']. reflexivity.
Qed.

(** C1. When the send step of an entry point returns an error (from
    marshalling, from building the request or from the transport),
    [OnConnectAuthenticate] and [OnACLCheck] return [false]; the call
    logs the error and never enters the decision function. *)
Theorem transport_error_denies (h : Hook) (cl : Client.t) (pk : Packet.t)
    (topic : string) (write : bool) (s s1 : State) (err : error) :
  (makeRequest h http_MethodPost (clientauthhost h)
     (any_ClientCheckPOST (connect_payload cl pk)) s = (Ret (inr err), s1) ->
   let s' :=
     logged s1 (LogError "error occurred while making http request" err) in
   OnConnectAuthenticate h cl pk s = (Ret false, s') /\
   callback_calls (new_events s s') = [])
  /\
  (makeRequest h http_MethodPost (aclhost h)
     (any_ACLCheckPOST (acl_payload cl topic write)) s = (Ret (inr err), s1) ->
   let s' :=
     logged s1 (LogError "error occurred while making http request" err) in
   OnACLCheck h cl topic write s = (Ret false, s') /\
   callback_calls (new_events s s') = []).
Proof.
  split; intros E s'; subst s'; split.
  - unfold OnConnectAuthenticate. cbv zeta. now apply deny_on_error.
  - eapply eq_trans;
      [eapply makeRequest_no_callback; [exact E | reflexivity] | reflexivity].
  - unfold OnACLCheck. cbv zeta. now apply deny_on_error.
  - eapply eq_trans;
      [eapply makeRequest_no_callback; [exact E | reflexivity] | reflexivity].
Qed.

(** C2. The default decision function allows exactly the status codes
    from 200 to 299, leaves the world as it is, and is what both entry
    points return on a hook that holds it, once the send step has
    returned a response. *)
Theorem default_policy_2xx (resp : http_Response) :
  (forall w,
     (fst (defaultCallback resp w) = true <->
      200 <= StatusCode resp < 300) /\
     (fst (defaultCallback resp w) = false <->
      StatusCode resp < 200 \/ 300 <= StatusCode resp) /\
     snd (defaultCallback resp w) = w)
  /\
  (forall h cl pk s s1,
     callback h = Some defaultCallback ->
     makeRequest h http_MethodPost (clientauthhost h)
       (any_ClientCheckPOST (connect_payload cl pk)) s
     = (Ret (inl resp), s1) ->
     OnConnectAuthenticate h cl pk s
     = (Ret ((200 <=? StatusCode resp) && (StatusCode resp <? 300)),
        logged s1 (CallbackCall resp)))
  /\
  (forall h cl topic write s s1,
     callback h = Some defaultCallback ->
     makeRequest h http_MethodPost (aclhost h)
       (any_ACLCheckPOST (acl_payload cl topic write)) s
     = (Ret (inl resp), s1) ->
     OnACLCheck h cl topic write s
     = (Ret ((200 <=? StatusCode resp) && (StatusCode resp <? 300)),
        logged s1 (CallbackCall resp))).
Proof.
  split; [| split].
  - intros w. unfold defaultCallback. simpl.
    destruct (Z.leb_spec 200 (StatusCode resp)) as [L | L];
      destruct (Z.ltb_spec (StatusCode resp) 300) as [U | U]; simpl;
      (split; [| split]); try reflexivity;
      split; intros H; try discriminate; try reflexivity; lia.
  - intros h cl pk s s1 C E. unfold OnConnectAuthenticate. cbv zeta.
    now rewrite (decide_on_response h _ _ s s1 resp C E).
  - intros h cl topic write s s1 C E. unfold OnACLCheck. cbv zeta.
    now rewrite (decide_on_response h _ _ s s1 resp C E).
Qed.

(** [Init], case by case. *)
Lemma Init_eq (h : Hook) (config : any) (s : State) :
  Init h config s =
  match config with
  | any_nil => (Ret (h, Some (errors_New "nil config")), s)
  | any_Options o =>
      if validateConfig o then
        (Ret (initialized o, None),
         match Callback o with
         | Some _ =>
             logged s
               (LogDebug
                  "replacing default callback with one included in options")
         | None => s
         end)
      else (Ret (h, Some (errors_New "hostname configs failed validation")), s)
  | _ => (Ret (h, Some (errors_New "improper config")), s)
  end.
Proof.
  destruct config as [| o | | |]; try reflexivity.
  unfold Init. destruct (validateConfig o); [| reflexivity].
  unfold initialized. destruct (Callback o); reflexivity.
Qed.

Lemma validateConfig_true (o : Options) :
  validateConfig o = true <->
  exists u1 u2, ACLHost o = Some u1 /\ ClientAuthenticationHost o = Some u2.
Proof.
  unfold validateConfig.
  destruct (ACLHost o) as [u1 |], (ClientAuthenticationHost o) as [u2 |];
    split; intros H; try discriminate; try reflexivity;
    try (now exists u1, u2);
    destruct H as (? & ? & H1 & H2); discriminate.
Qed.

Lemma validateConfig_false (o : Options) :
  validateConfig o = false <->
  ACLHost o = None \/ ClientAuthenticationHost o = None.
Proof.
  unfold validateConfig.
  destruct (ACLHost o), (ClientAuthenticationHost o);
    split; intros H; try discriminate; try reflexivity; auto;
    destruct H; discriminate.
Qed.

(** C3. After [Init] with a decision function in the options, the hook
    holds that function, and on every check whose send step returns a
    response both entry points call it once, on that response, and return
    what it returns; the status code plays no part. *)
Theorem override_decides (h h' : Hook) (o : Options) (cb : Callback_func)
    (s s0 : State) :
  Callback o = Some cb ->
  Init h (any_Options o) s = (Ret (h', None), s0) ->
  callback h' = Some cb /\
  (forall cl pk s1 s2 resp,
     makeRequest h' http_MethodPost (clientauthhost h')
       (any_ClientCheckPOST (connect_payload cl pk)) s1
     = (Ret (inl resp), s2) ->
     let s' := {| world := snd (cb resp (world s2));
                  trace := trace s2 ++ [CallbackCall resp] |} in
     OnConnectAuthenticate h' cl pk s1 = (Ret (fst (cb resp (world s2))), s')
     /\ callback_calls (new_events s1 s') = [resp])
  /\
  (forall cl topic write s1 s2 resp,
     makeRequest h' http_MethodPost (aclhost h')
       (any_ACLCheckPOST (acl_payload cl topic write)) s1
     = (Ret (inl resp), s2) ->
     let s' := {| world := snd (cb resp (world s2));
                  trace := trace s2 ++ [CallbackCall resp] |} in
     OnACLCheck h' cl topic write s1 = (Ret (fst (cb resp (world s2))), s')
     /\ callback_calls (new_events s1 s') = [resp]).
Proof.
  intros C I. rewrite Init_eq in I.
  destruct (validateConfig o); [| discriminate].
  assert (Hc : callback h' = Some cb).
  { inversion I. unfold initialized. simpl. now rewrite C. }
  split; [exact Hc |]. split.
  - intros cl pk s1 s2 resp E s'. subst s'. split.
    + unfold OnConnectAuthenticate. cbv zeta.
      now apply decide_on_response.
    + eapply eq_trans;
      [eapply makeRequest_no_callback; [exact E | reflexivity] | reflexivity].
  - intros cl topic write s1 s2 resp E s'. subst s'. split.
    + unfold OnACLCheck. cbv zeta. now apply decide_on_response.
    + eapply eq_trans;
      [eapply makeRequest_no_callback; [exact E | reflexivity] | reflexivity].
Qed.

(** C4. [Init] always returns.  It returns an error exactly when the
    config is nil, or is not an [Options] value, or lacks the ACL host or
    the client authentication host; the three cases give three errors
    with different messages ("nil config", "improper config", "hostname
    configs failed validation").  With both hosts present it returns no
    error, and with a nil round tripper the hook's client is the one
    whose transport wraps [http.DefaultTransport]. *)
Theorem Init_error_kinds (h : Hook) (config : any) (s : State) :
  exists h' err s',
    Init h config s = (Ret (h', err), s') /\
    (err <> None <->
       config = any_nil \/
       (forall o, config <> any_Options o) \/
       (exists o, config = any_Options o /\
                  (ACLHost o = None \/ ClientAuthenticationHost o = None))) /\
    (config = any_nil -> err = Some (errors_New "nil config")) /\
    (config <> any_nil -> (forall o, config <> any_Options o) ->
       err = Some (errors_New "improper config")) /\
    (forall o, config = any_Options o ->
       ACLHost o = None \/ ClientAuthenticationHost o = None ->
       err = Some (errors_New "hostname configs failed validation")) /\
    (forall o u1 u2, config = any_Options o ->
       ACLHost o = Some u1 -> ClientAuthenticationHost o = Some u2 ->
       err = None /\
       (RoundTripper o = None ->
        httpClient h' =
          Some {| Client_Transport :=
                    TransportPtr
                      (Build_Transport (Some http_DefaultTransport)) |})) /\
    errors_New "nil config" <> errors_New "improper config" /\
    errors_New "nil config"
      <> errors_New "hostname configs failed validation" /\
    errors_New "improper config"
      <> errors_New "hostname configs failed validation".
Proof.
  destruct config as [| o | str | p | p].
  - exists h, (Some (errors_New "nil config")), s.
    split; [apply Init_eq |].
    repeat split; try discriminate; try congruence; auto.
  - destruct (validateConfig o) eqn:V.
    + exists (initialized o), None, (match Callback o with
                                     | Some _ =>
                                         logged s
                                           (LogDebug
                  "replacing default callback with one included in options")
                                     | None => s
                                     end).
      split; [rewrite Init_eq, V; reflexivity |].
      apply validateConfig_true in V. destruct V as (u1 & u2 & A & C).
      split; [| split; [| split; [| split; [| split]]]].
      * split; [congruence |].
        intros [H | [H | (o' & H & [H' | H'])]]; try discriminate;
          try (exfalso; now apply (H o)); inversion H; subst; congruence.
      * discriminate.
      * intros _ H. exfalso. now apply (H o).
      * intros o' H [H' | H']; inversion H; subst; congruence.
      * intros o' u1' u2' H _ _. inversion H; subst. split; [reflexivity |].
        intros R. unfold initialized, NewTransport. simpl. now rewrite R.
      * repeat split; discriminate.
    + exists h, (Some (errors_New "hostname configs failed validation")), s.
      split; [rewrite Init_eq, V; reflexivity |].
      apply validateConfig_false in V.
      split; [| split; [| split; [| split; [| split]]]].
      * split; [| discriminate]. intros _. right. right. now exists o.
      * discriminate.
      * intros _ H. exfalso. now apply (H o).
      * reflexivity.
      * intros o' u1 u2 H A C. inversion H; subst.
        destruct V; congruence.
      * repeat split; discriminate.
  - exists h, (Some (errors_New "improper config")), s.
    split; [apply Init_eq |].
    repeat split; try discriminate; try congruence; auto.
    intros _. right. left. intros o. discriminate.
  - exists h, (Some (errors_New "improper config")), s.
    split; [apply Init_eq |].
    repeat split; try discriminate; try congruence; auto.
    intros _. right. left. intros o. discriminate.
  - exists h, (Some (errors_New "improper config")), s.
    split; [apply Init_eq |].
    repeat split; try discriminate; try congruence; auto.
    intros _. right. left. intros o. discriminate.
Qed.

(** C5. When [Init] returns an error it has assigned no field of the
    hook and logged nothing: the hook and the state are as before the
    call, so on a new hook every field is still nil. *)
Theorem Init_failure_keeps_hook (h h' : Hook) (config : any)
    (s s' : State) (err : error) :
  Init h config s = (Ret (h', Some err), s') ->
  h' = h /\ s' = s /\
  (h = new_Hook ->
   httpClient h' = None /\ aclhost h' = None /\ clientauthhost h' = None /\
   superuserhost h' = None /\ callback h' = None).
Proof.
  intros I. rewrite Init_eq in I.
  assert (E : h' = h /\ s' = s).
  { destruct config as [| o | | |]; try (inversion I; now split).
    destruct (validateConfig o); [discriminate | inversion I; now split]. }
  destruct E as [-> ->].
  split; [reflexivity | split; [reflexivity |]].
  intros ->. repeat split.
Qed.

(* ----------------------------------------------------------------- *)
(** *** The request an entry point sends *)

Lemma string_app_assoc (a b c : string) : (a ++ b) ++ c = a ++ b ++ c.
Proof.
  induction a as [| ch a IH]; simpl; [reflexivity | now rewrite IH].
Qed.

Lemma requests_sent_app (l1 l2 : list Event) :
  requests_sent (l1 ++ l2) = (requests_sent l1 ++ requests_sent l2)%list.
Proof. apply flat_map_app. Qed.

(** The send step sends nothing, or the one request built from the
    method, the URL and the marshalled payload. *)
Lemma makeRequest_sends (h : Hook) (m : string) (u : option url_URL)
    (p : any) (s s1 : State) (r : outcome (http_Response + error)) :
  p <> any_nil ->
  makeRequest h m u p s = (r, s1) ->
  requests_sent (new_events s s1) = [] \/
  exists u0 rb,
    u = Some u0 /\ json_Marshal p = inl rb /\
    requests_sent (new_events s s1) =
      [{| Method := if String.eqb m "" then "GET" else m;
          URL := URL_String u0;
          Body := bytes_NewBuffer rb |}].
Proof.
  intros N E. unfold makeRequest in E.
  assert (B : match p with
              | any_nil => inl http_NoBody
              | _ => match json_Marshal p with
                     | inl rb => inl (bytes_NewBuffer rb)
                     | inr err => inr err
                     end
              end
              = match json_Marshal p with
                | inl rb => inl (bytes_NewBuffer rb)
                | inr err => inr err
                end).
  { destruct p; try reflexivity. now contradiction N. }
  rewrite B in E. clear B.
  destruct (json_Marshal p) as [rb | err].
  2: { run_in E. inversion E. left.
       now rewrite new_events_same. }
  destruct u as [u0 |].
  2: { run_in E. inversion E. left.
       now rewrite new_events_same. }
  run_in E. unfold http_NewRequest in E.
  destruct (NewRequest_err m (URL_String u0)) as [err |].
  { inversion E. left.
       now rewrite new_events_same. }
  destruct (httpClient h) as [c |].
  2: { inversion E. left.
       now rewrite new_events_same. }
  run_in E. right. exists u0, rb. split; [reflexivity |].
  split; [reflexivity |].
  match type of E with
  | context [(trace s ++ [ClientDo ?req])%list] =>
      rewrite (new_events_app s s1 [ClientDo req]); [reflexivity |]
  end.
  destruct (Client_Do (RoundTrip (Client_Transport c)) _ (world s))
    as [[[resp | err] |] w']; inversion E; reflexivity.
Qed.

(** On an initialized hook, with a payload that marshals and a URL that
    [http.NewRequest] accepts, the send step sends that request. *)
Lemma makeRequest_sent (h : Hook) (m : string) (u0 : url_URL)
    (c : http_Client) (p : any) (rb : string) (s : State) :
  p <> any_nil ->
  json_Marshal p = inl rb ->
  httpClient h = Some c ->
  NewRequest_err m (URL_String u0) = None ->
  exists r s1,
    makeRequest h m (Some u0) p s = (r, s1) /\
    requests_sent (new_events s s1) =
      [{| Method := if String.eqb m "" then "GET" else m;
          URL := URL_String u0;
          Body := bytes_NewBuffer rb |}].
Proof.
  intros N J C R.
  destruct (makeRequest h m (Some u0) p s) as [r s1] eqn:E.
  exists r, s1. split; [reflexivity |].
  unfold makeRequest in E. rewrite J, C in E.
  assert (B : match p with
              | any_nil => inl http_NoBody
              | _ => @inl io_Reader error (bytes_NewBuffer rb)
              end = inl (bytes_NewBuffer rb)).
  { destruct p; try reflexivity. now contradiction N. }
  rewrite B in E. clear B. run_in E. unfold http_NewRequest in E.
  rewrite R in E. run_in E.
  match type of E with
  | context [(trace s ++ [ClientDo ?req])%list] =>
      rewrite (new_events_app s s1 [ClientDo req]); [reflexivity |]
  end.
  destruct (Client_Do (RoundTrip (Client_Transport c)) _ (world s))
    as [[[resp | err] |] w']; inversion E; reflexivity.
Qed.

(** After the send step an entry point sends nothing more. *)
Lemma entry_requests (h : Hook) (m : string) (u : option url_URL) (p : any)
    (s s' : State) (res : outcome bool) :
  (r <- makeRequest h m u p ;;
   match r with
   | inr err =>
       Log_Error "error occurred while making http request" err ;;;
       ret false
   | inl resp => call_callback h resp
   end) s = (res, s') ->
  exists r1 s1,
    makeRequest h m u p s = (r1, s1) /\
    requests_sent (new_events s s') = requests_sent (new_events s s1).
Proof.
  intros E. unfold bind at 1 in E.
  destruct (makeRequest h m u p s) as [r1 s1] eqn:E1.
  exists r1, s1. split; [reflexivity |].
  assert (T : exists evs, trace s1 = (trace s ++ evs)%list).
  { destruct (makeRequest_trace _ _ _ _ _ _ _ E1) as [T | [req T]].
    - exists []. now rewrite app_nil_r.
    - now exists [ClientDo req]. }
  destruct T as [evs T]. rewrite (new_events_app s s1 evs T).
  assert (T' : trace s' = trace s1 \/
               exists e, trace s' = (trace s1 ++ [e])%list /\
                         requests_sent [e] = []).
  { destruct r1 as [[resp | err] |].
    - run_in E. destruct (callback h) as [cb |].
      + destruct (cb resp (world s1)) as [b w']. inversion E.
        right. now exists (CallbackCall resp).
      + inversion E. now left.
    - run_in E. inversion E. right.
      now exists (LogError "error occurred while making http request" err).
    - inversion E. now left. }
  destruct T' as [T' | [e [T' R]]].
  - rewrite (new_events_app s s' evs); [reflexivity | congruence].
  - rewrite (new_events_app s s' (evs ++ [e])).
    + rewrite requests_sent_app, R. now rewrite app_nil_r.
    + rewrite T', T. now rewrite app_assoc.
Qed.

Lemma run_exists {A : Type} (m : M A) (s : State) :
  exists r s', m s = (r, s').
Proof. destruct (m s) as [r s']. now exists r, s'. Qed.

(** The payload of a connect check holds the client ID, the
    password and the username of the connect packet byte for byte; it is
    marshalled to the object with the members clientid, password and
    username, in this order; and the only request the check sends is a
    POST to the client authentication host with exactly this body.  On an
    initialized hook the request is sent. *)
Lemma connect_request_body (h : Hook) (cl : Client.t) (pk : Packet.t)
    (s : State) :
  let p := connect_payload cl pk in
  let body :=
    "{" ++ dquote ++ "clientid" ++ dquote ++ ":"
        ++ json_string (Client.ID cl)
    ++ "," ++ dquote ++ "password" ++ dquote ++ ":"
        ++ json_string
             (string_of_list_byte (Packet.Password (Packet.Connect pk)))
    ++ "," ++ dquote ++ "username" ++ dquote ++ ":"
        ++ json_string
             (string_of_list_byte (Packet.Username (Packet.Connect pk)))
    ++ "}" in
  (ClientCheckPOST.ClientID p = Client.ID cl /\
   list_byte_of_string (ClientCheckPOST.Password p)
     = Packet.Password (Packet.Connect pk) /\
   list_byte_of_string (ClientCheckPOST.Username p)
     = Packet.Username (Packet.Connect pk)) /\
  json_Marshal (any_ClientCheckPOST p) = inl body /\
  (forall res s' req,
     OnConnectAuthenticate h cl pk s = (res, s') ->
     In req (requests_sent (new_events s s')) ->
     Method req = "POST" /\ Body req = bytes_NewBuffer body /\
     exists u, clientauthhost h = Some u /\ URL req = URL_String u) /\
  (forall u c,
     clientauthhost h = Some u -> httpClient h = Some c ->
     NewRequest_err http_MethodPost (URL_String u) = None ->
     exists res s',
       OnConnectAuthenticate h cl pk s = (res, s') /\
       requests_sent (new_events s s') =
         [{| Method := "POST"; URL := URL_String u;
             Body := bytes_NewBuffer body |}]).
Proof.
  intros p body.
  assert (N0 : any_ClientCheckPOST p <> any_nil) by discriminate.
  assert (J : json_Marshal (any_ClientCheckPOST p) = inl body).
  { unfold json_Marshal, json_object, json_members, json_name, body.
    simpl. repeat (rewrite string_app_assoc; simpl). reflexivity. }
  split; [| split; [exact J | split]].
  - unfold p, connect_payload. simpl.
    now rewrite !list_byte_of_string_of_list_byte.
  - intros res s' req E I.
    destruct (entry_requests _ _ _ _ _ _ _ E) as (r1 & s1 & E1 & R).
    rewrite R in I.
    destruct (makeRequest_sends _ _ _ _ _ _ _ N0 E1)
      as [N | (u0 & rb & U & J' & S)].
    + rewrite N in I. destruct I.
    + rewrite S in I. destruct I as [<- | []].
      fold p in J'. rewrite J in J'. inversion J'. simpl.
      split; [reflexivity | split; [reflexivity |]]. now exists u0.
  - intros u c U C R.
    destruct (run_exists (OnConnectAuthenticate h cl pk) s)
      as (res & s' & E).
    exists res, s'. split; [exact E |].
    destruct (entry_requests _ _ _ _ _ _ _ E) as (r1 & s1 & E1 & R1).
    rewrite R1. rewrite U in E1.
    destruct (makeRequest_sent h http_MethodPost u c _ body s N0 J C R)
      as (r2 & s2 & E2 & S).
    fold p in E1. rewrite E1 in E2. inversion E2. subst. exact S.
Qed.

(** The payload of a topic check holds the username of the client,
    the client ID and the topic byte for byte, and "true" for a write,
    "false" for a read; it is marshalled to the object with the members
    username, clientid, topic and acc, in this order; and the only
    request the check sends is a POST to the ACL host with exactly this
    body.  On an initialized hook the request is sent. *)
Lemma acl_request_body (h : Hook) (cl : Client.t) (topic : string)
    (write : bool) (s : State) :
  let p := acl_payload cl topic write in
  let body :=
    "{" ++ dquote ++ "username" ++ dquote ++ ":"
        ++ json_string
             (string_of_list_byte (Client.Username (Client.Props cl)))
    ++ "," ++ dquote ++ "clientid" ++ dquote ++ ":"
        ++ json_string (Client.ID cl)
    ++ "," ++ dquote ++ "topic" ++ dquote ++ ":" ++ json_string topic
    ++ "," ++ dquote ++ "acc" ++ dquote ++ ":"
        ++ json_string (if write then "true" else "false")
    ++ "}" in
  (list_byte_of_string (ACLCheckPOST.Username p)
     = Client.Username (Client.Props cl) /\
   ACLCheckPOST.ClientID p = Client.ID cl /\
   ACLCheckPOST.Topic p = topic /\
   ACLCheckPOST.ACC p = if write then "true" else "false") /\
  json_Marshal (any_ACLCheckPOST p) = inl body /\
  (forall res s' req,
     OnACLCheck h cl topic write s = (res, s') ->
     In req (requests_sent (new_events s s')) ->
     Method req = "POST" /\ Body req = bytes_NewBuffer body /\
     exists u, aclhost h = Some u /\ URL req = URL_String u) /\
  (forall u c,
     aclhost h = Some u -> httpClient h = Some c ->
     NewRequest_err http_MethodPost (URL_String u) = None ->
     exists res s',
       OnACLCheck h cl topic write s = (res, s') /\
       requests_sent (new_events s s') =
         [{| Method := "POST"; URL := URL_String u;
             Body := bytes_NewBuffer body |}]).
Proof.
  intros p body.
  assert (N0 : any_ACLCheckPOST p <> any_nil) by discriminate.
  assert (J : json_Marshal (any_ACLCheckPOST p) = inl body).
  { unfold json_Marshal, json_object, json_members, json_name, body.
    simpl. repeat (rewrite string_app_assoc; simpl). reflexivity. }
  split; [| split; [exact J | split]].
  - unfold p, acl_payload. simpl.
    now rewrite !list_byte_of_string_of_list_byte.
  - intros res s' req E I.
    destruct (entry_requests _ _ _ _ _ _ _ E) as (r1 & s1 & E1 & R).
    rewrite R in I.
    destruct (makeRequest_sends _ _ _ _ _ _ _ N0 E1)
      as [N | (u0 & rb & U & J' & S)].
    + rewrite N in I. destruct I.
    + rewrite S in I. destruct I as [<- | []].
      fold p in J'. rewrite J in J'. inversion J'. simpl.
      split; [reflexivity | split; [reflexivity |]]. now exists u0.
  - intros u c U C R.
    destruct (run_exists (OnACLCheck h cl topic write) s)
      as (res & s' & E).
    exists res, s'. split; [exact E |].
    destruct (entry_requests _ _ _ _ _ _ _ E) as (r1 & s1 & E1 & R1).
    rewrite R1. rewrite U in E1.
    destruct (makeRequest_sent h http_MethodPost u c _ body s N0 J C R)
      as (r2 & s2 & E2 & S).
    fold p in E1. rewrite E1 in E2. inversion E2. subst. exact S.
Qed.

(** C8. With no round tripper, [NewTransport] installs the package's
    [Transport] around [http.DefaultTransport]; with one, it installs
    that round tripper itself.  [Transport.RoundTrip] is the wrapped
    transport's [RoundTrip] on the same request: same result, same effect
    on the world, for every request.  So the default client answers every
    request as [http.DefaultTransport] does, and behaves under [Do] as a
    client whose transport is [http.DefaultTransport]. *)
Theorem transport_forwards_unchanged :
  NewTransport None =
    {| Client_Transport :=
         TransportPtr (Build_Transport (Some http_DefaultTransport)) |} /\
  (forall rt, NewTransport (Some rt) = {| Client_Transport := rt |}) /\
  (forall orig r w,
     Transport_RoundTrip (Build_Transport (Some orig)) r w
     = RoundTrip orig r w) /\
  (forall r w,
     RoundTrip (Client_Transport (NewTransport None)) r w
     = let (res, w') := DefaultTransport_RoundTrip r w in (Ret res, w')) /\
  (forall f r w,
     RoundTrip (Client_Transport (NewTransport (Some (CustomRoundTripper f))))
       r w
     = let (res, w') := f r w in (Ret res, w')) /\
  (forall req s,
     http_Client_Do (NewTransport None) req s
     = http_Client_Do {| Client_Transport := http_DefaultTransport |} req s).
Proof.
  repeat split.
Qed.

(* ----------------------------------------------------------------- *)
(** *** The older variant *)

(** The send step of the older variant returns what the send step of the
    hook returns and leaves the same world; only the log differs. *)
Lemma Legacy_makeRequest_agrees (h : Hook) (lh : Legacy.HTTPAuthHook)
    (m : string) (u : option url_URL) (p : any) (s : State) :
  Legacy.httpclient lh = httpClient h ->
  fst (Legacy.makeRequest lh m u p s) = fst (makeRequest h m u p s) /\
  world (snd (Legacy.makeRequest lh m u p s))
    = world (snd (makeRequest h m u p s)).
Proof.
  intros C. unfold Legacy.makeRequest, makeRequest. rewrite C.
  destruct p as [| o | str | q | q]; run;
    try (destruct (json_Marshal _) as [rb | err]; run);
    try (now split);
    (destruct u as [u0 |]; [| now split]);
    match goal with
    | |- context [http_NewRequest ?a ?b ?c] =>
        destruct (http_NewRequest a b c) as [req | err]; [| now split]
    end;
    (destruct (httpClient h) as [c |]; [| now split]);
    destruct (Client_Do (RoundTrip (Client_Transport c)) req (world s))
      as [[[resp | err] |] w']; now split.
Qed.

(** For every status code, the test of the older variant (false on 401
    and 403, else whether the code is from 200 to 299) is the default
    decision. *)
Lemma legacy_status_test (resp : http_Response) (w : World) :
  (if (StatusCode resp =? http_StatusUnauthorized)
      || (StatusCode resp =? http_StatusForbidden)
   then false
   else (200 <=? StatusCode resp) && (StatusCode resp <? 300))
  = fst (defaultCallback resp w).
Proof.
  unfold defaultCallback, http_StatusUnauthorized, http_StatusForbidden.
  simpl.
  destruct (Z.eqb_spec (StatusCode resp) 401) as [-> | N1];
    [reflexivity |].
  destruct (Z.eqb_spec (StatusCode resp) 403) as [-> | N3]; reflexivity.
Qed.

(** C9. The older variant, which denies on 401 and 403 before it tests
    for 2xx, decides as the hook with the default decision function
    does: on hooks with the same client and hosts, from the same state,
    both entry points of the two variants have the same outcome and leave
    the same world, whatever the status code of the response; and the
    status test of the older variant is the default decision for every
    response. *)
Theorem legacy_decides_as_default (h : Hook) (lh : Legacy.HTTPAuthHook) :
  Legacy.httpclient lh = httpClient h ->
  Legacy.aclhost lh = aclhost h ->
  Legacy.clientauthhost lh = clientauthhost h ->
  callback h = Some defaultCallback ->
  (forall resp w,
     (if (StatusCode resp =? http_StatusUnauthorized)
         || (StatusCode resp =? http_StatusForbidden)
      then false
      else (200 <=? StatusCode resp) && (StatusCode resp <? 300))
     = fst (defaultCallback resp w)) /\
  (forall cl pk s,
     fst (Legacy.OnConnectAuthenticate lh cl pk s)
       = fst (OnConnectAuthenticate h cl pk s) /\
     world (snd (Legacy.OnConnectAuthenticate lh cl pk s))
       = world (snd (OnConnectAuthenticate h cl pk s))) /\
  (forall cl topic write s,
     fst (Legacy.OnACLCheck lh cl topic write s)
       = fst (OnACLCheck h cl topic write s) /\
     world (snd (Legacy.OnACLCheck lh cl topic write s))
       = world (snd (OnACLCheck h cl topic write s))).
Proof.
  intros C A U D.
  assert (T : forall m u p s,
            fst ((r <- Legacy.makeRequest lh m u p ;;
                  match r with
                  | inr _ => ret false
                  | inl resp =>
                      if (StatusCode resp =? http_StatusUnauthorized)
                         || (StatusCode resp =? http_StatusForbidden)
                      then ret false
                      else ret ((200 <=? StatusCode resp)
                                && (StatusCode resp <? 300))
                  end) s)
            = fst ((r <- makeRequest h m u p ;;
                    match r with
                    | inr err =>
                        Log_Error
                          "error occurred while making http request" err ;;;
                        ret false
                    | inl resp => call_callback h resp
                    end) s) /\
            world (snd ((r <- Legacy.makeRequest lh m u p ;;
                  match r with
                  | inr _ => ret false
                  | inl resp =>
                      if (StatusCode resp =? http_StatusUnauthorized)
                         || (StatusCode resp =? http_StatusForbidden)
                      then ret false
                      else ret ((200 <=? StatusCode resp)
                                && (StatusCode resp <? 300))
                  end) s))
            = world (snd ((r <- makeRequest h m u p ;;
                    match r with
                    | inr err =>
                        Log_Error
                          "error occurred while making http request" err ;;;
                        ret false
                    | inl resp => call_callback h resp
                    end) s))).
  { intros m u p s.
    destruct (Legacy_makeRequest_agrees h lh m u p s C) as [F W].
    run. rewrite D.
    destruct (Legacy.makeRequest lh m u p s) as [r1 s1].
    destruct (makeRequest h m u p s) as [r2 s2].
    simpl in F, W. subst r2.
    destruct r1 as [[resp | err] |]; [| now split | now split].
    pose proof (legacy_status_test resp (world s2)) as L.
    unfold defaultCallback in *. simpl in L |- *.
    destruct ((StatusCode resp =? http_StatusUnauthorized)
              || (StatusCode resp =? http_StatusForbidden));
      simpl; (split; [first [reflexivity | now rewrite <- L] | exact W]). }
  split; [intros resp w; apply legacy_status_test |]. split.
  - intros cl pk s. unfold Legacy.OnConnectAuthenticate, OnConnectAuthenticate.
    cbv zeta. rewrite U. apply T.
  - intros cl topic write s. unfold Legacy.OnACLCheck, OnACLCheck.
    cbv zeta. rewrite A. apply T.
Qed.

(* ----------------------------------------------------------------- *)
(** *** The superuser host *)

(** The entry points read the client, the two hosts and the decision
    function of the hook, and nothing else. *)
Lemma entry_points_read (h1 h2 : Hook) :
  httpClient h1 = httpClient h2 ->
  aclhost h1 = aclhost h2 ->
  clientauthhost h1 = clientauthhost h2 ->
  callback h1 = callback h2 ->
  (forall cl pk s,
     OnConnectAuthenticate h1 cl pk s = OnConnectAuthenticate h2 cl pk s) /\
  (forall cl topic write s,
     OnACLCheck h1 cl topic write s = OnACLCheck h2 cl topic write s).
Proof.
  intros C A U B.
  unfold OnConnectAuthenticate, OnACLCheck, makeRequest, call_callback.
  rewrite C, A, U, B. split; reflexivity.
Qed.

(** C10. Two configurations that differ only in the superuser host give
    the same result of [Init] (the same error or none, the same log),
    and the hooks they leave answer every connect check and every topic
    check alike: same outcome, same requests and events, same world.
    The host is stored by a successful [Init] and read by no entry
    point. *)
Theorem superuserhost_inert (h : Hook) (o : Options) (v : option url_URL)
    (s : State) :
  exists h1 h2 err s',
    Init h (any_Options o) s = (Ret (h1, err), s') /\
    Init h (any_Options (with_SuperUserHost o v)) s = (Ret (h2, err), s') /\
    (err = None -> superuserhost h1 = SuperUserHost o /\ superuserhost h2 = v)
    /\
    (forall cl pk s1,
       OnConnectAuthenticate h1 cl pk s1 = OnConnectAuthenticate h2 cl pk s1)
    /\
    (forall cl topic write s1,
       OnACLCheck h1 cl topic write s1 = OnACLCheck h2 cl topic write s1).
Proof.
  rewrite !Init_eq.
  change (validateConfig (with_SuperUserHost o v)) with (validateConfig o).
  change (Callback (with_SuperUserHost o v)) with (Callback o).
  destruct (validateConfig o).
  - do 4 eexists. split; [reflexivity |]. split; [reflexivity |].
    split; [intros _; split; reflexivity |].
    apply entry_points_read; reflexivity.
  - do 4 eexists. split; [reflexivity |]. split; [reflexivity |].
    split; [discriminate |].
    apply entry_points_read; reflexivity.
Qed.

End Properties.

(* ================================================================= *)
(** ** The properties at work *)

Section Scenarios.

(** Both hosts set, the transport answers 200: the connect check
    passes. *)
Example connect_200_allows :
  fst (OnConnectAuthenticate (test_Hook (Some (answering 200)) None)
         test_Client test_Packet start) = Ret true.
Proof. reflexivity. Qed.

(** The transport answers 401, 418, 302 or 500: denied. *)
Example connect_non_2xx_denies :
  map (fun status =>
         fst (OnConnectAuthenticate (test_Hook (Some (answering status)) None)
                test_Client test_Packet start))
      [401; 418; 302; 500; 199; 300; 0; -200]
  = repeat (Ret false) 8.
Proof. reflexivity. Qed.

(** The transport fails: the topic check is denied. *)
Example acl_transport_error_denies :
  fst (OnACLCheck (test_Hook (Some (failing "Oh Crap")) None)
         test_Client "/topic" false start) = Ret false.
Proof. reflexivity. Qed.

(** No hosts: [Init] fails, and a check on the hook panics on its nil
    host. *)
Example init_without_hosts_fails :
  Init new_Hook (any_Options empty_Options) start
  = (Ret (new_Hook,
          Some (errors_New "hostname configs failed validation")), start) /\
  fst (OnConnectAuthenticate (@new_Hook recording) test_Client test_Packet
         start) = Panic.
Proof. split; reflexivity. Qed.

(** The wrapper hands the wrapped transport the request it received,
    once. *)
Example wrapper_records_the_request (r : http_Request) :
  Transport_RoundTrip (Build_Transport (Some (answering 204))) r []
  = (Ret (inl (response 204)), [r]).
Proof. reflexivity. Qed.

(** The configurations of the package's test of [Init]. *)
Example init_test_table :
  map (fun config =>
         snd (returned (new_Hook, None) (fst (Init new_Hook config start))))
      [any_Options (test_Options None None);
       any_Options (test_Options None (Some (fun _ w => (true, w))));
       any_nil;
       any_string "";
       any_Options empty_Options]
  = [None; None;
     Some (errors_New "nil config");
     Some (errors_New "improper config");
     Some (errors_New "hostname configs failed validation")].
Proof. reflexivity. Qed.

End Scenarios.

Lemma transport_error_denies_witness :
  let h := initialized (test_Options (Some (failing "Oh Crap")) None) in
  let err := errors_New "Oh Crap" in
  let log := LogError "error occurred while making http request" err in
  let s1 := snd (makeRequest h http_MethodPost (clientauthhost h)
                   (any_ClientCheckPOST (connect_payload alice alice_connect))
                   start) in
  let s2 := snd (makeRequest h http_MethodPost (aclhost h)
                   (any_ACLCheckPOST (acl_payload alice "/topic" true))
                   start) in
  (OnConnectAuthenticate h alice alice_connect start
     = (Ret false, logged s1 log) /\
   callback_calls (new_events start (logged s1 log)) = []) /\
  (OnACLCheck h alice "/topic" true start = (Ret false, logged s2 log) /\
   callback_calls (new_events start (logged s2 log)) = []).
Proof.
  intros h err log s1 s2. split.
  - apply (proj1 (transport_error_denies h alice alice_connect "/topic" true
                    start s1 err)).
    reflexivity.
  - apply (proj2 (transport_error_denies h alice alice_connect "/topic" true
                    start s2 err)).
    reflexivity.
Defined.

Lemma default_policy_2xx_witness :
  let h := initialized (test_Options (Some (answering 204)) None) in
  fst (@defaultCallback recording (response 204) []) = true /\
  fst (OnConnectAuthenticate h alice alice_connect start) = Ret true /\
  fst (OnACLCheck h alice "/topic" false start) = Ret true.
Proof.
  intros h.
  destruct (default_policy_2xx (P := recording) (response 204))
    as (D & C & A).
  split; [apply (D []); simpl; lia |]. split.
  - rewrite (C h alice alice_connect start
               (snd (makeRequest h http_MethodPost (clientauthhost h)
                       (any_ClientCheckPOST
                          (connect_payload alice alice_connect)) start))
               eq_refl eq_refl).
    reflexivity.
  - rewrite (A h alice "/topic" false start
               (snd (makeRequest h http_MethodPost (aclhost h)
                       (any_ACLCheckPOST (acl_payload alice "/topic" false))
                       start))
               eq_refl eq_refl).
    reflexivity.
Defined.

(** Status 200 and a decision function that returns false: denied,
    though the default decision on the same response is to allow. *)
Lemma override_decides_witness :
  let o := test_Options (Some (answering 200)) (Some deny_all) in
  let h := initialized o in
  callback h = Some deny_all /\
  fst (OnConnectAuthenticate h alice alice_connect start) = Ret false /\
  fst (OnACLCheck h alice "/topic" true start) = Ret false /\
  fst (@defaultCallback recording (response 200) []) = true.
Proof.
  intros o h.
  destruct (override_decides new_Hook h o deny_all start
              (logged start
                 (LogDebug
                    "replacing default callback with one included in options"))
              eq_refl eq_refl) as (B & C & A).
  split; [exact B |]. split; [| split; [| reflexivity]].
  - destruct (C alice alice_connect start
                (snd (makeRequest h http_MethodPost (clientauthhost h)
                        (any_ClientCheckPOST
                           (connect_payload alice alice_connect)) start))
                (response 200) eq_refl) as [E _].
    rewrite E. reflexivity.
  - destruct (A alice "/topic" true start
                (snd (makeRequest h http_MethodPost (aclhost h)
                        (any_ACLCheckPOST (acl_payload alice "/topic" true))
                        start))
                (response 200) eq_refl) as [E _].
    rewrite E. reflexivity.
Defined.

Lemma Init_failure_keeps_hook_witness :
  let h := initialized (test_Options None None) in
  (h = h /\ start = start /\
   (h = new_Hook ->
    httpClient h = None /\ aclhost h = None /\ clientauthhost h = None /\
    superuserhost h = None /\ callback h = None)) /\
  (@new_Hook recording = new_Hook /\ start = start /\
   (@new_Hook recording = new_Hook ->
    httpClient (@new_Hook recording) = None /\
    aclhost (@new_Hook recording) = None /\
    clientauthhost (@new_Hook recording) = None /\
    superuserhost (@new_Hook recording) = None /\
    callback (@new_Hook recording) = None)).
Proof.
  intros h. split.
  - apply (Init_failure_keeps_hook h h (any_string "") start start
             (errors_New "improper config")).
    reflexivity.
  - apply (Init_failure_keeps_hook new_Hook new_Hook
             (any_Options empty_Options) start start
             (errors_New "hostname configs failed validation")).
    reflexivity.
Defined.

Lemma connect_request_body_witness :
  let h := initialized (test_Options (Some (answering 200)) None) in
  requests_sent
    (new_events start (snd (OnConnectAuthenticate h alice alice_connect start)))
  = [{| Method := "POST";
        URL := "http://clientauthenticationhost.com";
        Body :=
          bytes_NewBuffer
            ("{" ++ dquote ++ "clientid" ++ dquote ++ ":"
                 ++ dquote ++ "sensor-7" ++ dquote
             ++ "," ++ dquote ++ "password" ++ dquote ++ ":"
                 ++ dquote ++ " s3cret " ++ dquote
             ++ "," ++ dquote ++ "username" ++ dquote ++ ":"
                 ++ dquote ++ "alice" ++ dquote
             ++ "}") |}].
Proof.
  intros h.
  destruct (connect_request_body h alice alice_connect start)
    as (_ & _ & _ & S).
  destruct (S {| URL_String := "http://clientauthenticationhost.com" |}
              (NewTransport (Some (answering 200)))
              eq_refl eq_refl eq_refl) as (res & s' & E & R).
  rewrite E. simpl snd. rewrite R. reflexivity.
Defined.

Lemma acl_request_body_witness :
  let h := initialized (test_Options (Some (answering 200)) None) in
  let body (acc : string) :=
    "{" ++ dquote ++ "username" ++ dquote ++ ":"
        ++ dquote ++ "alice" ++ dquote
    ++ "," ++ dquote ++ "clientid" ++ dquote ++ ":"
        ++ dquote ++ "sensor-7" ++ dquote
    ++ "," ++ dquote ++ "topic" ++ dquote ++ ":"
        ++ dquote ++ "a/+/b " ++ dquote
    ++ "," ++ dquote ++ "acc" ++ dquote ++ ":"
        ++ dquote ++ acc ++ dquote
    ++ "}" in
  requests_sent
    (new_events start (snd (OnACLCheck h alice "a/+/b " true start)))
  = [{| Method := "POST"; URL := "http://aclhost.com";
        Body := bytes_NewBuffer (body "true") |}] /\
  requests_sent
    (new_events start (snd (OnACLCheck h alice "a/+/b " false start)))
  = [{| Method := "POST"; URL := "http://aclhost.com";
        Body := bytes_NewBuffer (body "false") |}].
Proof.
  intros h body. split.
  - destruct (acl_request_body h alice "a/+/b " true start)
      as (_ & _ & _ & S).
    destruct (S {| URL_String := "http://aclhost.com" |}
                (NewTransport (Some (answering 200)))
                eq_refl eq_refl eq_refl) as (res & s' & E & R).
    rewrite E. simpl snd. rewrite R. reflexivity.
  - destruct (acl_request_body h alice "a/+/b " false start)
      as (_ & _ & _ & S).
    destruct (S {| URL_String := "http://aclhost.com" |}
                (NewTransport (Some (answering 200)))
                eq_refl eq_refl eq_refl) as (res & s' & E & R).
    rewrite E. simpl snd. rewrite R. reflexivity.
Defined.

(** The older variant and the hook on a transport that answers 401, and
    on one that answers 200. *)
Lemma legacy_decides_as_default_witness :
  let lh (status : Z) : @Legacy.HTTPAuthHook recording :=
    {| Legacy.httpclient := Some (NewTransport (Some (answering status)));
       Legacy.aclhost := stringToURL "http://aclhost.com";
       Legacy.clientauthhost :=
         stringToURL "http://clientauthenticationhost.com";
       Legacy.superuserhost := None |} in
  let h (status : Z) :=
    initialized (test_Options (Some (answering status)) None) in
  (fst (Legacy.OnConnectAuthenticate (lh 401) alice alice_connect start)
     = fst (OnConnectAuthenticate (h 401) alice alice_connect start) /\
   fst (OnConnectAuthenticate (h 401) alice alice_connect start)
     = Ret false) /\
  (fst (Legacy.OnACLCheck (lh 200) alice "/topic" true start)
     = fst (OnACLCheck (h 200) alice "/topic" true start) /\
   fst (OnACLCheck (h 200) alice "/topic" true start) = Ret true).
Proof.
  intros lh h. split; (split; [| reflexivity]).
  - destruct (legacy_decides_as_default (h 401) (lh 401)
                eq_refl eq_refl eq_refl eq_refl) as (_ & C & _).
    apply (C alice alice_connect start).
  - destruct (legacy_decides_as_default (h 200) (lh 200)
                eq_refl eq_refl eq_refl eq_refl) as (_ & _ & A).
    apply (A alice "/topic" true start).
Defined.

Lemma superuserhost_inert_witness :
  let o := test_Options (Some (answering 200)) None in
  let o' := with_SuperUserHost o (stringToURL "http://superuser.com") in
  Init new_Hook (any_Options o) start
    = (Ret (initialized o, None), start) /\
  Init new_Hook (any_Options o') start
    = (Ret (initialized o', None), start) /\
  OnConnectAuthenticate (initialized o) alice alice_connect start
    = OnConnectAuthenticate (initialized o') alice alice_connect start /\
  OnACLCheck (initialized o) alice "/topic" true start
    = OnACLCheck (initialized o') alice "/topic" true start.
Proof.
  intros o o'.
  destruct (superuserhost_inert new_Hook o
              (stringToURL "http://superuser.com") start)
    as (h1 & h2 & err & s' & I1 & I2 & _ & C & A).
  change (Init new_Hook (any_Options o) start)
    with (Ret (initialized o, @None error), start) in I1.
  change (Init new_Hook (any_Options (with_SuperUserHost o
                                        (stringToURL "http://superuser.com")))
            start)
    with (Ret (initialized o', @None error), start) in I2.
  inversion I1. subst h1 err s'. inversion I2. subst h2.
  split; [reflexivity |]. split; [reflexivity |]. split.
  - apply C.
  - apply A.
Defined.

(* ================================================================= *)
(** ** Further properties of the hook *)

Section Further.
Context {P : Platform}.

Ltac run :=
  cbv beta iota zeta delta
    [bind ret panic emit liftIO deref Log_Error Log_Debug logged
     call_callback http_Client_Do];
  simpl.

Ltac run_in H :=
  cbv beta iota zeta delta
    [bind ret panic emit liftIO deref Log_Error Log_Debug logged
     call_callback http_Client_Do] in H;
  simpl in H.

(** The reader [makeRequest] hands to [http.NewRequest], for a payload
    that is nil or marshals to [rb]. *)
Lemma makeRequest_buffer (p : any) (rb : string) :
  json_Marshal p = inl rb ->
  match p with
  | any_nil => inl http_NoBody
  | _ => match json_Marshal p with
         | inl rb => inl (bytes_NewBuffer rb)
         | inr err => @inr io_Reader error err
         end
  end
  = inl (match p with any_nil => http_NoBody | _ => bytes_NewBuffer rb end).
Proof.
  intros J. destruct p; try reflexivity; now rewrite J.
Qed.

(** X1. On a hook with a client, for a payload that is nil or marshals
    and a method and URL that [http.NewRequest] accepts, [makeRequest]
    calls the client once, on the request made of the method (GET when
    empty), the rendered URL and the body ([http.NoBody] for a nil
    payload, the marshalled bytes otherwise), and returns the client's
    response or error as it is. *)
Theorem makeRequest_sends_once (h : Hook) (m : string) (u : url_URL)
    (c : http_Client) (p : any) (rb : string) (s : State) :
  httpClient h = Some c ->
  json_Marshal p = inl rb ->
  NewRequest_err m (URL_String u) = None ->
  let req :=
    {| Method := if String.eqb m "" then "GET" else m;
       URL := URL_String u;
       Body := match p with
               | any_nil => http_NoBody
               | _ => bytes_NewBuffer rb
               end |} in
  makeRequest h m (Some u) p s
  = (fst (Client_Do (RoundTrip (Client_Transport c)) req (world s)),
     {| world := snd (Client_Do (RoundTrip (Client_Transport c)) req
                        (world s));
        trace := trace s ++ [ClientDo req] |}).
Proof.
  intros C J R req. unfold makeRequest.
  rewrite (makeRequest_buffer p rb J). run.
  unfold http_NewRequest. rewrite R, C. run. fold req.
  destruct (Client_Do (RoundTrip (Client_Transport c)) req (world s))
    as [[[resp | err] |] w']; reflexivity.
Qed.

(** X2. When the payload does not marshal, [makeRequest] returns the
    error of [json.Marshal] at once: it reads neither the URL nor the
    client (both may be nil), sends nothing and logs nothing. *)
Theorem makeRequest_marshal_error (h : Hook) (m : string)
    (u : option url_URL) (p : any) (err : error) (s : State) :
  p <> any_nil ->
  json_Marshal p = inr err ->
  makeRequest h m u p s = (Ret (inr err), s).
Proof.
  intros N J. unfold makeRequest.
  destruct p; try (now contradiction N); now rewrite J.
Qed.

(** X3. When [http.NewRequest] refuses the method or the URL,
    [makeRequest] returns its error: it does not read the client (which
    may be nil), sends nothing and logs nothing. *)
Theorem makeRequest_NewRequest_error (h : Hook) (m : string) (u : url_URL)
    (p : any) (rb : string) (err : error) (s : State) :
  json_Marshal p = inl rb ->
  NewRequest_err m (URL_String u) = Some err ->
  makeRequest h m (Some u) p s = (Ret (inr err), s).
Proof.
  intros J R. unfold makeRequest.
  rewrite (makeRequest_buffer p rb J). run.
  unfold http_NewRequest. now rewrite R.
Qed.

(** The events of a check, by outcome. *)
Lemma check_shapes (h : Hook) (m : string) (u : option url_URL) (p : any)
    (s s' : State) (res : outcome bool) :
  (r <- makeRequest h m u p ;;
   match r with
   | inr err =>
       Log_Error "error occurred while making http request" err ;;;
       ret false
   | inl resp => call_callback h resp
   end) s = (res, s') ->
  (res = Panic /\
   (new_events s s' = [] \/ exists req, new_events s s' = [ClientDo req]))
  \/
  (res = Ret false /\
   exists err,
     new_events s s'
       = [LogError "error occurred while making http request" err] \/
     exists req,
       new_events s s'
         = [ClientDo req;
            LogError "error occurred while making http request" err])
  \/
  (exists b req resp,
     res = Ret b /\ new_events s s' = [ClientDo req; CallbackCall resp]).
Proof.
  intros E. unfold bind at 1 in E.
  destruct (makeRequest h m u p s) as [r1 s1] eqn:E1.
  pose proof (makeRequest_trace _ _ _ _ _ _ _ E1) as T.
  destruct r1 as [[resp | err] |].
  - (* a response: the request was sent *)
    assert (Q : exists req, trace s1 = (trace s ++ [ClientDo req])%list).
    { clear E T. unfold makeRequest in E1.
      destruct (match p with
                | any_nil => inl http_NoBody
                | _ => match json_Marshal p with
                       | inl rb => inl (bytes_NewBuffer rb)
                       | inr err => inr err
                       end
                end) as [buffer | err]; [| discriminate].
      destruct u as [u0 |]; [| discriminate]. run_in E1.
      destruct (http_NewRequest m (URL_String u0) buffer) as [req | err];
        [| discriminate].
      destruct (httpClient h) as [c |]; [| discriminate]. run_in E1.
      destruct (Client_Do (RoundTrip (Client_Transport c)) req (world s))
        as [[[resp' | err] |] w']; inversion E1.
      now exists req. }
    destruct Q as [req Q]. run_in E.
    destruct (callback h) as [cb |].
    + destruct (cb resp (world s1)) as [b w']. inversion E.
      right. right. exists b, req, resp. split; [reflexivity |].
      apply new_events_app. simpl. rewrite Q, <- app_assoc. reflexivity.
    + inversion E. subst. left. split; [reflexivity |]. right.
      exists req. now apply new_events_app.
  - run_in E. inversion E. right. left. split; [reflexivity |].
    exists err. destruct T as [T | [req T]].
    + left. apply new_events_app. simpl. now rewrite T.
    + right. exists req. apply new_events_app. simpl.
      rewrite T, <- app_assoc. reflexivity.
  - inversion E. subst. left. split; [reflexivity |].
    destruct T as [T | [req T]].
    + left. now apply new_events_same.
    + right. exists req. now apply new_events_app.
Qed.

(** X4. What a check leaves behind, by outcome.  A check that panics has
    at most called the client; a check denied for an error has logged
    that error once, after at most one call of the client; any other
    check has called the client once and then the decision function
    once, and returns a boolean.  So no check calls the client or the
    decision function twice, none decides without a response, and none
    that logs an error allows. *)
Theorem check_events (h : Hook) (cl : Client.t) (pk : Packet.t)
    (topic : string) (write : bool) (s : State) :
  let shape (res : outcome bool) (evs : list Event) :=
    (res = Panic /\ (evs = [] \/ exists req, evs = [ClientDo req]))
    \/
    (res = Ret false /\
     exists err,
       evs = [LogError "error occurred while making http request" err] \/
       exists req,
         evs = [ClientDo req;
                LogError "error occurred while making http request" err])
    \/
    (exists b req resp,
       res = Ret b /\ evs = [ClientDo req; CallbackCall resp]) in
  shape (fst (OnConnectAuthenticate h cl pk s))
        (new_events s (snd (OnConnectAuthenticate h cl pk s))) /\
  shape (fst (OnACLCheck h cl topic write s))
        (new_events s (snd (OnACLCheck h cl topic write s))).
Proof.
  intros shape. split.
  - destruct (OnConnectAuthenticate h cl pk s) as [res s'] eqn:E.
    exact (check_shapes _ _ _ _ _ _ _ E).
  - destruct (OnACLCheck h cl topic write s) as [res s'] eqn:E.
    exact (check_shapes _ _ _ _ _ _ _ E).
Qed.

(** What a check returns on a hook that holds the default decision
    function, given what the send step returned. *)
Lemma default_check (h : Hook) (m : string) (u : option url_URL) (p : any)
    (s s' : State) :
  callback h = Some defaultCallback ->
  (r <- makeRequest h m u p ;;
   match r with
   | inr err =>
       Log_Error "error occurred while making http request" err ;;;
       ret false
   | inl resp => call_callback h resp
   end) s = (Ret true, s') ->
  exists resp s1,
    makeRequest h m u p s = (Ret (inl resp), s1) /\
    200 <= StatusCode resp < 300 /\
    s' = logged s1 (CallbackCall resp).
Proof.
  intros D E. unfold bind at 1 in E.
  destruct (makeRequest h m u p s) as [[[resp | err] |] s1];
    [| run_in E; discriminate | discriminate].
  unfold call_callback in E. rewrite D in E. run_in E.
  exists resp, s1. split; [reflexivity |].
  inversion E as [[B]]. split; [| reflexivity].
  apply andb_true_iff in B. destruct B as [L U].
  apply Z.leb_le in L. apply Z.ltb_lt in U. lia.
Qed.

(** X5. On a hook that holds the default decision function a check
    allows only when the send step returned a response whose status code
    is from 200 to 299; the check then adds nothing but the call of the
    decision function. *)
Theorem default_allow_needs_2xx (h : Hook) (cl : Client.t) (pk : Packet.t)
    (topic : string) (write : bool) (s s' : State) :
  callback h = Some defaultCallback ->
  (OnConnectAuthenticate h cl pk s = (Ret true, s') ->
   exists resp s1,
     makeRequest h http_MethodPost (clientauthhost h)
       (any_ClientCheckPOST (connect_payload cl pk)) s
     = (Ret (inl resp), s1) /\
     200 <= StatusCode resp < 300 /\
     s' = logged s1 (CallbackCall resp))
  /\
  (OnACLCheck h cl topic write s = (Ret true, s') ->
   exists resp s1,
     makeRequest h http_MethodPost (aclhost h)
       (any_ACLCheckPOST (acl_payload cl topic write)) s
     = (Ret (inl resp), s1) /\
     200 <= StatusCode resp < 300 /\
     s' = logged s1 (CallbackCall resp)).
Proof.
  intros D. split; intros E.
  - exact (default_check h _ _ _ s s' D E).
  - exact (default_check h _ _ _ s s' D E).
Qed.

(** X6. A check on a hook whose host is nil panics before it sends or
    logs anything: the state is as before the call.  This is the case of
    every check on a new hook whose [Init] returned an error. *)
Theorem nil_host_panics (h : Hook) (cl : Client.t) (pk : Packet.t)
    (topic : string) (write : bool) (s : State) :
  (clientauthhost h = None ->
   OnConnectAuthenticate h cl pk s = (Panic, s)) /\
  (aclhost h = None -> OnACLCheck h cl topic write s = (Panic, s)) /\
  (forall config s0 h' err s0',
     Init new_Hook config s0 = (Ret (h', Some err), s0') ->
     OnConnectAuthenticate h' cl pk s = (Panic, s) /\
     OnACLCheck h' cl topic write s = (Panic, s)).
Proof.
  assert (C : forall h0, clientauthhost h0 = None ->
                         OnConnectAuthenticate h0 cl pk s = (Panic, s)).
  { intros h0 N. unfold OnConnectAuthenticate, makeRequest. now rewrite N. }
  assert (A : forall h0, aclhost h0 = None ->
                         OnACLCheck h0 cl topic write s = (Panic, s)).
  { intros h0 N. unfold OnACLCheck, makeRequest. now rewrite N. }
  split; [apply C |]. split; [apply A |].
  intros config s0 h' err s0' I. rewrite Init_eq in I.
  assert (E : h' = new_Hook).
  { destruct config as [| o | | |]; try (now inversion I).
    destruct (validateConfig o); [discriminate | now inversion I]. }
  subst h'. split; [now apply C | now apply A].
Qed.

(** X8. A successful [Init] assigns every field of the hook, so nothing
    the hook held before survives: the hook it leaves is the one [Init]
    with the same options leaves on any other hook, in any state, with
    the client, the hosts and the decision function of these options,
    and the default decision function when they have none. *)
Theorem Init_replaces_configuration (h1 h2 : Hook) (o2 : Options)
    (s1 s2 : State) :
  Init h1 (any_Options o2) s1 = (Ret (h2, None), s2) ->
  (forall h0 s, fst (Init h0 (any_Options o2) s) = Ret (h2, None)) /\
  httpClient h2 = Some (NewTransport (RoundTripper o2)) /\
  aclhost h2 = ACLHost o2 /\
  clientauthhost h2 = ClientAuthenticationHost o2 /\
  superuserhost h2 = SuperUserHost o2 /\
  (forall cb, Callback o2 = Some cb -> callback h2 = Some cb) /\
  (Callback o2 = None -> callback h2 = Some defaultCallback).
Proof.
  intros I2. rewrite Init_eq in I2.
  destruct (validateConfig o2) eqn:V; [| discriminate].
  inversion I2. split.
  { intros h0 s. now rewrite Init_eq, V. }
  repeat (split; [reflexivity |]).
  unfold initialized. simpl. split.
  - intros cb N. now rewrite N.
  - intros N. now rewrite N.
Qed.

(* ----------------------------------------------------------------- *)
(** *** The events provided *)

Lemma bytes_Index_lower (s sep : list byte) : -1 <= bytes_Index s sep.
Proof.
  induction s as [| x s IH]; destruct sep as [| p sep']; simpl; try lia.
  destruct (Byte.eqb x p && bytes_HasPrefix s sep'); [lia |].
  destruct (Z.eqb_spec (bytes_Index s (p :: sep')) (-1)); lia.
Qed.

Lemma bytes_Index_one_cons (x b : byte) (l : list byte) :
  bytes_Index (x :: l) [b]
  = if Byte.eqb x b then 0
    else if bytes_Index l [b] =? -1 then -1 else bytes_Index l [b] + 1.
Proof.
  simpl. replace (bytes_HasPrefix l []) with true by now destruct l.
  now rewrite andb_true_r.
Qed.

(** A one byte slice is contained exactly where the byte occurs. *)
Lemma bytes_Contains_one (l : list byte) (b : byte) :
  bytes_Contains l [b] = true <-> In b l.
Proof.
  unfold bytes_Contains. induction l as [| x l IH].
  - simpl. split; [discriminate | contradiction].
  - rewrite bytes_Index_one_cons. simpl In.
    destruct (Byte.eqb x b) eqn:X.
    + split; [| reflexivity]. intros _. left.
      now apply Byte.byte_dec_bl.
    + assert (N : x <> b) by now apply Byte.eqb_false.
      pose proof (bytes_Index_lower l [b]) as L.
      destruct (Z.eqb_spec (bytes_Index l [b]) (-1)) as [E | E].
      * simpl. simpl in IH.
        split; [discriminate |]. intros [H | H]; [contradiction |].
        now apply IH.
      * destruct (Z.eqb_spec (bytes_Index l [b] + 1) (-1)) as [E' | E'];
          [lia |]. simpl.
        split; [| reflexivity]. intros _. right. now apply IH.
Qed.

Variables (mqtt_OnACLCheck mqtt_OnConnectAuthenticate : byte).

(** X9. [Provides], of the hook and of its older variant, is true
    exactly for the two event bytes of the ACL check and of the connect
    authentication, whatever the broker's values for them and whatever
    the hook holds. *)
Theorem Provides_two_events (h : Hook) (lh : Legacy.HTTPAuthHook)
    (b : byte) :
  (Provides mqtt_OnACLCheck mqtt_OnConnectAuthenticate h b = true <->
   b = mqtt_OnACLCheck \/ b = mqtt_OnConnectAuthenticate) /\
  (Legacy.Provides mqtt_OnACLCheck mqtt_OnConnectAuthenticate lh b = true <->
   b = mqtt_OnACLCheck \/ b = mqtt_OnConnectAuthenticate).
Proof.
  unfold Provides, Legacy.Provides.
  split; rewrite bytes_Contains_one; simpl; intuition congruence.
Qed.

(* ----------------------------------------------------------------- *)
(** *** The older variant *)

(** X10. [Init] of the older variant and [Init] of the hook, on a
    config with the same hosts and round tripper and no decision
    function, return the same error, and the hook logs nothing.  When
    they succeed the two hooks hold the same client and hosts and the
    hook holds the default decision function; when they fail both
    receivers are as before.  On a nil config and on a config of another
    type they fail alike. *)
Theorem Legacy_Init_agrees (lh : Legacy.HTTPAuthHook) (h : Hook)
    (c : Legacy.HTTPAuthHookConfig) (s : State) :
  let o :=
    {| ACLHost := Legacy.ACLHost c;
       SuperUserHost := Legacy.SuperUserHost c;
       ClientAuthenticationHost := Legacy.ClientAuthenticationHost c;
       RoundTripper := Legacy.RoundTripper c;
       Callback := None |} in
  (exists lh' h' err,
     Legacy.Init lh (Legacy.config_HTTPAuthHookConfig c) = (lh', err) /\
     Init h (any_Options o) s = (Ret (h', err), s) /\
     (err = None ->
      Legacy.httpclient lh' = httpClient h' /\
      Legacy.aclhost lh' = aclhost h' /\
      Legacy.clientauthhost lh' = clientauthhost h' /\
      Legacy.superuserhost lh' = superuserhost h' /\
      callback h' = Some defaultCallback) /\
     (err <> None -> lh' = lh /\ h' = h)) /\
  (exists err,
     Legacy.Init lh Legacy.config_nil = (lh, Some err) /\
     Init h any_nil s = (Ret (h, Some err), s)) /\
  (forall str, exists err,
     Legacy.Init lh (Legacy.config_string str) = (lh, Some err) /\
     Init h (any_string str) s = (Ret (h, Some err), s)).
Proof.
  intros o. split; [| split].
  - rewrite Init_eq. unfold Legacy.Init.
    change (validateConfig o) with (Legacy.validateConfig c).
    destruct (Legacy.validateConfig c); simpl.
    + do 3 eexists. split; [reflexivity |]. split; [reflexivity |].
      split; [| intros N; now contradiction N].
      intros _. repeat split.
    + do 3 eexists. split; [reflexivity |]. split; [reflexivity |].
      split; [discriminate |]. now split.
  - eexists. split; reflexivity.
  - intros str. eexists. split; reflexivity.
Qed.

(** What a check of the older variant returns, given what its send step
    returned. *)
Lemma Legacy_check (m : M (http_Response + error)) (s s1 : State)
    (r : http_Response + error) :
  m s = (Ret r, s1) ->
  (r <- m ;;
   match r with
   | inr err => ret false
   | inl resp =>
       if (StatusCode resp =? http_StatusUnauthorized)
          || (StatusCode resp =? http_StatusForbidden)
       then ret false
       else ret ((200 <=? StatusCode resp) && (StatusCode resp <? 300))
   end) s
  = (Ret match r with
         | inl resp => (200 <=? StatusCode resp) && (StatusCode resp <? 300)
         | inr _ => false
         end, s1).
Proof.
  intros E. unfold bind. rewrite E. destruct r as [resp | err];
    [| reflexivity].
  unfold http_StatusUnauthorized, http_StatusForbidden.
  destruct (Z.eqb_spec (StatusCode resp) 401) as [-> | N1];
    [reflexivity |].
  destruct (Z.eqb_spec (StatusCode resp) 403) as [-> | N3]; reflexivity.
Qed.

(** X11. Once the send step of the older variant has returned, its
    entry points return true exactly when it returned a response whose
    status code is from 200 to 299, and false for every other response
    and for every error; they add nothing to what the send step left. *)
Theorem Legacy_allows_iff_2xx (lh : Legacy.HTTPAuthHook) (cl : Client.t)
    (pk : Packet.t) (topic : string) (write : bool) (s s1 : State)
    (r : http_Response + error) :
  let allow :=
    match r with
    | inl resp => (200 <=? StatusCode resp) && (StatusCode resp <? 300)
    | inr _ => false
    end in
  (allow = true <->
   exists resp, r = inl resp /\ 200 <= StatusCode resp < 300) /\
  (Legacy.makeRequest lh http_MethodPost (Legacy.clientauthhost lh)
     (any_ClientCheckPOST (connect_payload cl pk)) s = (Ret r, s1) ->
   Legacy.OnConnectAuthenticate lh cl pk s = (Ret allow, s1)) /\
  (Legacy.makeRequest lh http_MethodPost (Legacy.aclhost lh)
     (any_ACLCheckPOST (acl_payload cl topic write)) s = (Ret r, s1) ->
   Legacy.OnACLCheck lh cl topic write s = (Ret allow, s1)).
Proof.
  intros allow. split; [| split].
  - unfold allow. destruct r as [resp | err].
    + split.
      * intros B. exists resp. split; [reflexivity |].
        apply andb_true_iff in B. destruct B as [L U].
        apply Z.leb_le in L. apply Z.ltb_lt in U. lia.
      * intros (resp' & E & L & U). inversion E. subst resp'.
        apply andb_true_iff. split;
          [now apply Z.leb_le | now apply Z.ltb_lt].
    + split; [discriminate |]. intros (resp & E & _). discriminate.
  - intros E. unfold Legacy.OnConnectAuthenticate. cbv zeta.
    exact (Legacy_check _ s s1 r E).
  - intros E. unfold Legacy.OnACLCheck. cbv zeta.
    exact (Legacy_check _ s s1 r E).
Qed.

(* ----------------------------------------------------------------- *)
(** *** Payloads and transports *)

Lemma string_of_list_byte_inj (a b : list byte) :
  string_of_list_byte a = string_of_list_byte b -> a = b.
Proof.
  intros E. rewrite <- (list_byte_of_string_of_list_byte a),
              <- (list_byte_of_string_of_list_byte b).
  now rewrite E.
Qed.

(** X12. The payloads lose nothing: two connect checks with the same
    payload have the same client ID, password and username, and two
    topic checks with the same payload have the same client ID,
    username and topic and are both writes or both reads. *)
Theorem payloads_determine_inputs (cl cl' : Client.t) (pk pk' : Packet.t)
    (topic topic' : string) (write write' : bool) :
  (connect_payload cl pk = connect_payload cl' pk' ->
   Client.ID cl = Client.ID cl' /\
   Packet.Password (Packet.Connect pk)
     = Packet.Password (Packet.Connect pk') /\
   Packet.Username (Packet.Connect pk)
     = Packet.Username (Packet.Connect pk')) /\
  (acl_payload cl topic write = acl_payload cl' topic' write' ->
   Client.ID cl = Client.ID cl' /\
   Client.Username (Client.Props cl) = Client.Username (Client.Props cl') /\
   topic = topic' /\ write = write').
Proof.
  split.
  - unfold connect_payload. intros E. inversion E as [[I W U]].
    split; [reflexivity |].
    split; now apply string_of_list_byte_inj.
  - unfold acl_payload. intros E. inversion E as [[U I T A]].
    split; [reflexivity |].
    split; [now apply string_of_list_byte_inj |].
    split; [reflexivity |].
    destruct write, write'; simpl in A; (reflexivity || discriminate).
Qed.

End Further.

Lemma makeRequest_sends_once_witness :
  let h := initialized (test_Options (Some (answering 200)) None) in
  let req := {| Method := "GET"; URL := "http://aclhost.com";
                Body := http_NoBody |} in
  makeRequest h "" (aclhost h) any_nil start
  = (Ret (inl (response 200)),
     @Build_State recording [req] [ClientDo req]).
Proof.
  intros h req.
  exact (makeRequest_sends_once h "" {| URL_String := "http://aclhost.com" |}
           (NewTransport (Some (answering 200))) any_nil "null" start
           eq_refl eq_refl eq_refl).
Defined.

Lemma makeRequest_marshal_error_witness :
  makeRequest (@new_Hook recording) http_MethodPost None
    (any_Options empty_Options) start
  = (Ret (inr (errors_New "json: unsupported type: func")), start).
Proof.
  apply (makeRequest_marshal_error new_Hook http_MethodPost None
           (any_Options empty_Options)
           (errors_New "json: unsupported type: func") start).
  - discriminate.
  - reflexivity.
Defined.

Lemma makeRequest_NewRequest_error_witness :
  makeRequest (@new_Hook checking) "BAD METHOD"
    (stringToURL "http://aclhost.com") (any_string "x") checking_start
  = (Ret (inr (errors_New "net/http: invalid method")), checking_start).
Proof.
  exact (makeRequest_NewRequest_error (P := checking) new_Hook "BAD METHOD"
           {| URL_String := "http://aclhost.com" |} (any_string "x")
           (dquote ++ "x" ++ dquote)
           (errors_New "net/http: invalid method") checking_start
           eq_refl eq_refl).
Defined.

Lemma default_allow_needs_2xx_witness :
  let h := initialized (test_Options (Some (answering 204)) None) in
  exists resp s1,
    makeRequest h http_MethodPost (clientauthhost h)
      (any_ClientCheckPOST (connect_payload alice alice_connect)) start
    = (Ret (inl resp), s1) /\
    200 <= StatusCode resp < 300 /\
    snd (OnConnectAuthenticate h alice alice_connect start)
    = logged s1 (CallbackCall resp).
Proof.
  intros h.
  apply (proj1 (default_allow_needs_2xx h alice alice_connect "/topic" true
                  start
                  (snd (OnConnectAuthenticate h alice alice_connect start))
                  eq_refl)).
  reflexivity.
Defined.

(** A second [Init] without a decision function, on a hook that held
    one: the default is back. *)
Lemma Init_replaces_configuration_witness :
  let h1 := initialized (test_Options (Some (answering 200)) (Some deny_all)) in
  let o2 := test_Options None None in
  callback h1 = Some deny_all /\
  fst (Init h1 (any_Options o2) start) = Ret (initialized o2, None) /\
  fst (Init new_Hook (any_Options o2) start) = Ret (initialized o2, None) /\
  callback (initialized o2) = Some defaultCallback.
Proof.
  intros h1 o2.
  destruct (Init_replaces_configuration h1 (initialized o2) o2 start start
              eq_refl) as (I & _ & _ & _ & _ & _ & D).
  split; [reflexivity |]. split; [apply I |]. split; [apply I |].
  now apply D.
Defined.

(* ================================================================= *)
(** ** The request body under the encoder of encoding/json *)

(* ----------------------------------------------------------------- *)
(** *** The literal of a valid UTF-8 string denotes the string *)


Lemma forall_ascii_elim (f : ascii -> bool) :
  forall_ascii f = true -> forall c, f c = true.
Proof.
  intros H c. unfold forall_ascii in H. rewrite forallb_forall in H.
  apply H. unfold all_ascii. rewrite <- (ascii_nat_embedding c).
  apply in_map. apply in_seq. pose proof (nat_ascii_bounded c). lia.
Qed.

Lemma separator_high (r : N) :
  is_separator r = true -> N.shiftr r 12 = 2%N.
Proof.
  unfold is_separator. intros H. apply orb_true_iff in H.
  destruct H as [H | H]; apply N.eqb_eq in H; subst r; reflexivity.
Qed.

Lemma rune2_no_separator (s0 s1 : N) :
  is_separator (utf8_rune2 s0 s1) = false.
Proof.
  destruct (is_separator (utf8_rune2 s0 s1)) eqn:S; [| reflexivity].
  apply separator_high in S. unfold utf8_rune2 in S.
  rewrite N.shiftr_lor, (N.shiftr_shiftl_r _ 6 12) in S by discriminate.
  rewrite !N.shiftr_land in S. simpl in S.
  rewrite !N.land_0_r in S. discriminate.
Qed.

Lemma rune3_separator (c c1 c2 : ascii) :
  (0xE0 <= N_of_ascii c <= 0xEF)%N ->
  continuation c1 = true -> continuation c2 = true ->
  is_separator
    (utf8_rune3 (N_of_ascii c) (N_of_ascii c1) (N_of_ascii c2)) = true ->
  N_of_ascii c = 0xE2%N /\ N_of_ascii c1 = 0x80%N /\
  N_of_ascii c2
  = (0xA0 + N.land (utf8_rune3 (N_of_ascii c) (N_of_ascii c1)
                      (N_of_ascii c2)) 0xF)%N.
Proof.
  intros R C1 C2 S.
  assert (H : forall_ascii (fun c =>
            if ((0xE0 <=? N_of_ascii c) && (N_of_ascii c <=? 0xEF))%N then
              forall_ascii (fun c1 =>
                if continuation c1 then
                  forall_ascii (fun c2 =>
                    if continuation c2 then
                      let r := utf8_rune3 (N_of_ascii c) (N_of_ascii c1)
                                 (N_of_ascii c2) in
                      implb (is_separator r)
                        ((N_of_ascii c =? 0xE2) && (N_of_ascii c1 =? 0x80)
                         && (N_of_ascii c2 =? 0xA0 + N.land r 0xF))%N
                    else true)
                else true)
            else true) = true) by (vm_compute; reflexivity).
  pose proof (forall_ascii_elim _ H c) as H0. cbv beta in H0.
  replace ((0xE0 <=? N_of_ascii c) && (N_of_ascii c <=? 0xEF))%N
    with true in H0
    by (symmetry; apply andb_true_iff; split; apply N.leb_le; lia).
  pose proof (forall_ascii_elim _ H0 c1) as H1. cbv beta in H1.
  rewrite C1 in H1.
  pose proof (forall_ascii_elim _ H1 c2) as H2. cbv beta zeta in H2.
  rewrite C2, S in H2. simpl in H2.
  apply andb_true_iff in H2. destruct H2 as [H2 E2].
  apply andb_true_iff in H2. destruct H2 as [E0 E1].
  apply N.eqb_eq in E0, E1, E2. auto.
Qed.

Lemma rune4_no_separator (c c1 : ascii) (s2 s3 lo hi : N) :
  utf8_first (N_of_ascii c) = Some (4%nat, (lo, hi)) ->
  (lo <= N_of_ascii c1 <= hi)%N ->
  is_separator (utf8_rune4 (N_of_ascii c) (N_of_ascii c1) s2 s3) = false.
Proof.
  intros F R.
  destruct (is_separator
              (utf8_rune4 (N_of_ascii c) (N_of_ascii c1) s2 s3)) eqn:S;
    [| reflexivity].
  apply separator_high in S. unfold utf8_rune4 in S.
  rewrite !N.shiftr_lor in S.
  rewrite (N.shiftr_shiftl_l _ 18 12), (N.shiftr_shiftl_l _ 12 12),
    (N.shiftr_shiftl_r _ 6 12) in S by discriminate.
  rewrite !N.shiftr_land in S. simpl in S.
  rewrite !N.land_0_r, !N.lor_0_r, N.shiftl_0_r in S.
  assert (H : forall_ascii (fun c =>
            match utf8_first (N_of_ascii c) with
            | Some (4%nat, (lo, hi)) =>
                forall_ascii (fun c1 =>
                  if ((lo <=? N_of_ascii c1) && (N_of_ascii c1 <=? hi))%N then
                    negb (N.lor (N.shiftl (N.land (N_of_ascii c) 7) 6)
                                (N.land (N_of_ascii c1) 63) =? 2)%N
                  else true)
            | _ => true
            end) = true) by (vm_compute; reflexivity).
  pose proof (forall_ascii_elim _ H c) as H0. cbv beta in H0.
  rewrite F in H0.
  pose proof (forall_ascii_elim _ H0 c1) as H1. cbv beta in H1.
  replace ((lo <=? N_of_ascii c1) && (N_of_ascii c1 <=? hi))%N
    with true in H1
    by (symmetry; apply andb_true_iff; split; apply N.leb_le; lia).
  apply negb_true_iff, N.eqb_neq in H1. contradiction.
Qed.

Lemma continuation_range (c : ascii) :
  continuation c = true -> (0x80 <= N_of_ascii c <= 0xBF)%N.
Proof.
  unfold continuation. intros H. apply andb_true_iff in H.
  destruct H as [L U]. apply N.leb_le in L, U. lia.
Qed.

(** A byte that is no quote, no backslash and no control character
    stands for itself. *)
Lemma json_unescape_raw (c : ascii) (X : string) :
  (0x20 <= N_of_ascii c)%N ->
  N_of_ascii c <> 0x22%N -> N_of_ascii c <> 0x5C%N ->
  json_unescape (String c X)
  = match json_unescape X with
    | Some t => Some (String c t)
    | None => None
    end.
Proof.
  intros L Q B. cbn [json_unescape].
  rewrite (proj2 (N.eqb_neq _ _) Q), (proj2 (N.eqb_neq _ _) B).
  replace (N_of_ascii c <? 0x20)%N with false
    by (symmetry; apply N.ltb_ge; exact L).
  reflexivity.
Qed.

(** The escape of an ASCII byte stands for the byte. *)
Lemma json_unescape_escape (short : bool) (c : ascii) (X : string) :
  (N_of_ascii c <? 0x80)%N = true ->
  json_htmlSafeSet (N_of_ascii c) = false ->
  json_unescape (json_escape short c ++ X)
  = match json_unescape X with
    | Some t => Some (String c t)
    | None => None
    end.
Proof.
  intros L S.
  destruct c as [b0 b1 b2 b3 b4 b5 b6 b7].
  destruct short, b0, b1, b2, b3, b4, b5, b6, b7;
    first [ vm_compute in L; discriminate
          | vm_compute in S; discriminate
          | reflexivity ].
Qed.

(** The escapes of the line and paragraph separators stand for their
    three bytes. *)
Lemma json_unescape_separator (d : N) (X : string) :
  d = 8%N \/ d = 9%N ->
  json_unescape (("\u202" ++ String (json_hex d) EmptyString) ++ X)
  = match json_unescape X with
    | Some t =>
        Some (String (ascii_of_N 0xE2)
                (String (ascii_of_N 0x80)
                   (String (ascii_of_N (0xA0 + d)) t)))
    | None => None
    end.
Proof.
  intros [-> | ->]; reflexivity.
Qed.

Lemma substring_0_0 (t : string) : substring 0 0 t = EmptyString.
Proof. destruct t; reflexivity. Qed.

Lemma utf8_first_cases (s0 : N) (sz : nat) (lo hi : N) :
  utf8_first s0 = Some (sz, (lo, hi)) ->
  (sz = 2 \/ sz = 3 \/ sz = 4)%nat /\ (0x80 <= lo)%N /\ (hi <= 0xBF)%N /\
  (0xC2 <= s0)%N /\ (sz = 3%nat -> (0xE0 <= s0 <= 0xEF)%N).
Proof.
  unfold utf8_first.
  repeat match goal with
         | |- context [(?a <? ?b)%N] => destruct (N.ltb_spec a b)
         | |- context [(?a =? ?b)%N] => destruct (N.eqb_spec a b)
         end;
    intros E; inversion E; subst;
    (split; [auto | split; [lia | split; [lia | split; [lia |]]]]);
    intros; try discriminate; lia.
Qed.

(** The first rune of a string that begins with a byte from 0x80 on,
    when it is no error: a sequence of two, three or four bytes. *)
Lemma DecodeRune_multibyte (c : ascii) (rest : string) (r : N) (size : nat) :
  (N_of_ascii c <? 0x80)%N = false ->
  utf8_DecodeRuneInString (String c rest) = (r, size) ->
  ((r =? utf8_RuneError)%N && (size =? 1)%nat) = false ->
  exists lo hi,
    utf8_first (N_of_ascii c) = Some (size, (lo, hi)) /\
    ((size = 2%nat /\
      exists c1 t,
        rest = String c1 t /\ (lo <= N_of_ascii c1 <= hi)%N /\
        r = utf8_rune2 (N_of_ascii c) (N_of_ascii c1))
     \/
     (size = 3%nat /\
      exists c1 c2 t,
        rest = String c1 (String c2 t) /\ (lo <= N_of_ascii c1 <= hi)%N /\
        continuation c2 = true /\
        r = utf8_rune3 (N_of_ascii c) (N_of_ascii c1) (N_of_ascii c2))
     \/
     (size = 4%nat /\
      exists c1 c2 c3 t,
        rest = String c1 (String c2 (String c3 t)) /\
        (lo <= N_of_ascii c1 <= hi)%N /\
        continuation c2 = true /\ continuation c3 = true /\
        r = utf8_rune4 (N_of_ascii c) (N_of_ascii c1) (N_of_ascii c2)
              (N_of_ascii c3))).
Proof.
  intros A D E. unfold utf8_DecodeRuneInString in D. rewrite A in D.
  assert (bad : (utf8_RuneError, 1%nat) = (r, size) -> False).
  { intros B. inversion B. subst. discriminate. }
  destruct (utf8_first (N_of_ascii c)) as [[sz [lo hi]] |] eqn:F;
    [| now apply bad in D].
  destruct (utf8_first_cases _ _ _ _ F) as (Z & _).
  destruct (String.length (String c rest) <? sz)%nat; [now apply bad in D |].
  destruct rest as [| c1 r1]; [now apply bad in D |].
  destruct ((N_of_ascii c1 <? lo) || (hi <? N_of_ascii c1))%N eqn:R1;
    [now apply bad in D |].
  apply orb_false_iff in R1. destruct R1 as [R1 R1'].
  apply N.ltb_ge in R1, R1'.
  destruct Z as [-> | [-> | ->]]; simpl in D.
  - inversion D. subst. exists lo, hi. split; [reflexivity |]. left.
    split; [reflexivity |]. exists c1, r1. repeat split; lia.
  - destruct r1 as [| c2 r2]; [now apply bad in D |].
    destruct ((N_of_ascii c2 <? 0x80) || (0xBF <? N_of_ascii c2))%N eqn:R2;
      [now apply bad in D |].
    inversion D. subst. exists lo, hi. split; [reflexivity |]. right. left.
    split; [reflexivity |]. exists c1, c2, r2.
    split; [reflexivity |]. split; [lia |]. split; [| reflexivity].
    apply orb_false_iff in R2. destruct R2 as [R2 R2'].
    apply N.ltb_ge in R2, R2'. unfold continuation.
    apply andb_true_iff; split; apply N.leb_le; lia.
  - destruct r1 as [| c2 r2]; [now apply bad in D |].
    destruct ((N_of_ascii c2 <? 0x80) || (0xBF <? N_of_ascii c2))%N eqn:R2;
      [now apply bad in D |].
    destruct r2 as [| c3 r3]; [now apply bad in D |].
    destruct ((N_of_ascii c3 <? 0x80) || (0xBF <? N_of_ascii c3))%N eqn:R3;
      [now apply bad in D |].
    inversion D. subst. exists lo, hi. split; [reflexivity |]. right. right.
    split; [reflexivity |]. exists c1, c2, c3, r3.
    split; [reflexivity |]. split; [lia |].
    apply orb_false_iff in R2, R3. destruct R2 as [R2 R2'], R3 as [R3 R3'].
    apply N.ltb_ge in R2, R2', R3, R3'. unfold continuation.
    repeat split; try (apply andb_true_iff; split; apply N.leb_le; lia).
Qed.

Lemma json_unescape_from_valid (short : bool) (n : nat) :
  forall s,
    (String.length s <= n)%nat ->
    utf8_ValidString s = true ->
    json_unescape (json_appendString_from short s) = Some s.
Proof.
  induction n as [| n IH]; intros s L V.
  - destruct s; [reflexivity | simpl in L; lia].
  - destruct s as [| c rest]; [reflexivity |].
    simpl in L. cbn [json_appendString_from]. cbn [utf8_ValidString] in V.
    destruct (N_of_ascii c <? 0x80)%N eqn:A.
    + (* an ASCII byte *)
      assert (R : json_unescape (json_appendString_from short rest)
                  = Some rest) by (apply IH; [lia | exact V]).
      destruct (json_htmlSafeSet (N_of_ascii c)) eqn:S.
      * cbn [append]. rewrite json_unescape_raw, R; [reflexivity | | |];
          unfold json_htmlSafeSet in S;
          repeat (apply andb_true_iff in S; destruct S as [S ?]);
          repeat match goal with
                 | H : negb _ = true |- _ =>
                     apply negb_true_iff, N.eqb_neq in H
                 end;
          try apply N.leb_le in S; try assumption; lia.
      * now rewrite json_unescape_escape, R.
    + (* a sequence of several bytes *)
      destruct (utf8_DecodeRuneInString (String c rest)) as [r size] eqn:D.
      destruct ((r =? utf8_RuneError)%N && (size =? 1)%nat) eqn:E;
        [discriminate |].
      apply N.ltb_ge in A.
      destruct (DecodeRune_multibyte c rest r size
                  ltac:(now apply N.ltb_ge) D E)
        as (lo & hi & F & [(-> & c1 & t & -> & R1 & ->)
                          | [(-> & c1 & c2 & t & -> & R1 & C2 & ->)
                            | (-> & c1 & c2 & c3 & t & -> & R1 & C2 & C3
                               & ->)]]);
        destruct (utf8_first_cases _ _ _ _ F) as (_ & Llo & Lhi & _ & R0).
      * change ((utf8_rune2 (N_of_ascii c) (N_of_ascii c1) =? 0x2028)%N
                || (utf8_rune2 (N_of_ascii c) (N_of_ascii c1) =? 0x2029)%N)
          with (is_separator (utf8_rune2 (N_of_ascii c) (N_of_ascii c1))).
        rewrite rune2_no_separator. cbn [substring append].
        simpl in L. rewrite substring_0_0. cbn [append].
        rewrite !json_unescape_raw, (IH t) by (assumption || lia).
        reflexivity.
      * change ((utf8_rune3 (N_of_ascii c) (N_of_ascii c1) (N_of_ascii c2)
                 =? 0x2028)%N
                || (utf8_rune3 (N_of_ascii c) (N_of_ascii c1) (N_of_ascii c2)
                    =? 0x2029)%N)
          with (is_separator
                  (utf8_rune3 (N_of_ascii c) (N_of_ascii c1)
                     (N_of_ascii c2))).
        simpl in L. pose proof (continuation_range _ C2) as R2.
        destruct (is_separator
                    (utf8_rune3 (N_of_ascii c) (N_of_ascii c1)
                       (N_of_ascii c2))) eqn:S.
        -- destruct (rune3_separator c c1 c2 (R0 eq_refl)
                       ltac:(unfold continuation; apply andb_true_iff;
                             split; apply N.leb_le; lia) C2 S)
             as (E0 & E1 & E2).
           set (r := utf8_rune3 (N_of_ascii c) (N_of_ascii c1)
                       (N_of_ascii c2)) in *.
           assert (Hr : N.land r 0xF = 8%N \/ N.land r 0xF = 9%N).
           { unfold is_separator in S. apply orb_true_iff in S.
             destruct S as [S | S]; apply N.eqb_eq in S; rewrite S;
               [left | right]; reflexivity. }
           rewrite (json_unescape_separator _ _ Hr), (IH t)
             by (assumption || lia).
           rewrite <- E0, <- E1, <- E2, !ascii_N_embedding. reflexivity.
        -- cbn [substring append]. rewrite substring_0_0. cbn [append].
           rewrite !json_unescape_raw, (IH t) by (assumption || lia).
           reflexivity.
      * change ((utf8_rune4 (N_of_ascii c) (N_of_ascii c1) (N_of_ascii c2)
                   (N_of_ascii c3) =? 0x2028)%N
                || (utf8_rune4 (N_of_ascii c) (N_of_ascii c1) (N_of_ascii c2)
                      (N_of_ascii c3) =? 0x2029)%N)
          with (is_separator
                  (utf8_rune4 (N_of_ascii c) (N_of_ascii c1) (N_of_ascii c2)
                     (N_of_ascii c3))).
        rewrite (rune4_no_separator c c1 _ _ lo hi F R1).
        simpl in L. pose proof (continuation_range _ C2) as R2.
        pose proof (continuation_range _ C3) as R3.
        cbn [substring append]. rewrite substring_0_0. cbn [append].
        rewrite !json_unescape_raw, (IH t) by (assumption || lia).
        reflexivity.
Qed.

(** The literal [appendString] writes for a valid UTF-8 string denotes
    that string. *)
Lemma json_appendString_value (short : bool) (s : string) :
  utf8_ValidString s = true ->
  json_string_value (json_appendString short s) = Some s.
Proof.
  intros V. unfold json_appendString, json_string_value, dquote.
  cbn [append]. change (N_of_ascii (ascii_of_nat 34) =? 0x22)%N with true.
  cbv iota. exact (json_unescape_from_valid short _ s (le_n _) V).
Qed.

(** The literal of a string of plain ASCII bytes is the string between
    quotes. *)
Lemma json_appendString_plain (short : bool) (s : string) :
  json_plain s = true ->
  json_appendString short s = dquote ++ s ++ dquote.
Proof.
  intros H. unfold json_appendString. f_equal.
  induction s as [| c rest IH]; [reflexivity |].
  cbn [json_plain] in H. apply andb_true_iff in H. destruct H as [S R].
  cbn [json_appendString_from append].
  assert (A : (N_of_ascii c <? 0x80)%N = true).
  { unfold json_htmlSafeSet in S.
    repeat (apply andb_true_iff in S; destruct S as [S ?]). assumption. }
  rewrite A, S. cbn [append]. now rewrite IH.
Qed.

Section Encoded.
Context {P : Platform}.

(** C6. With the string encoder of [encoding/json], the payload of a
    connect check holds the client ID, the password and the username of
    the connect packet byte for byte, and is marshalled to the object
    with the members clientid, password and username, in this order,
    each the literal of its field.  The literal of a string that is
    valid UTF-8 denotes that string, and the literal of a string of
    plain ASCII bytes is the string between quotes.  The only request
    the check sends is a POST to the client authentication host with
    exactly this body, and on an initialized hook it is sent. *)
Theorem connect_request_body_utf8 (h : Hook) (cl : Client.t)
    (pk : Packet.t) (s : State) (short : bool) :
  json_string = json_appendString short ->
  let p := connect_payload cl pk in
  let literal := json_appendString short in
  let body :=
    "{" ++ dquote ++ "clientid" ++ dquote ++ ":"
        ++ literal (Client.ID cl)
    ++ "," ++ dquote ++ "password" ++ dquote ++ ":"
        ++ literal
             (string_of_list_byte (Packet.Password (Packet.Connect pk)))
    ++ "," ++ dquote ++ "username" ++ dquote ++ ":"
        ++ literal
             (string_of_list_byte (Packet.Username (Packet.Connect pk)))
    ++ "}" in
  (ClientCheckPOST.ClientID p = Client.ID cl /\
   list_byte_of_string (ClientCheckPOST.Password p)
     = Packet.Password (Packet.Connect pk) /\
   list_byte_of_string (ClientCheckPOST.Username p)
     = Packet.Username (Packet.Connect pk)) /\
  json_Marshal (any_ClientCheckPOST p) = inl body /\
  (forall f, utf8_ValidString f = true ->
             json_string_value (literal f) = Some f) /\
  (forall f, json_plain f = true -> literal f = dquote ++ f ++ dquote) /\
  (forall res s' req,
     OnConnectAuthenticate h cl pk s = (res, s') ->
     In req (requests_sent (new_events s s')) ->
     Method req = "POST" /\ Body req = bytes_NewBuffer body /\
     exists u, clientauthhost h = Some u /\ URL req = URL_String u) /\
  (forall u c,
     clientauthhost h = Some u -> httpClient h = Some c ->
     NewRequest_err http_MethodPost (URL_String u) = None ->
     exists res s',
       OnConnectAuthenticate h cl pk s = (res, s') /\
       requests_sent (new_events s s') =
         [{| Method := "POST"; URL := URL_String u;
             Body := bytes_NewBuffer body |}]).
Proof.
  intros J p literal body.
  assert (V : forall f, utf8_ValidString f = true ->
                        json_string_value (literal f) = Some f)
    by (intros f; apply json_appendString_value).
  assert (A : forall f, json_plain f = true ->
                        literal f = dquote ++ f ++ dquote)
    by (intros f; apply json_appendString_plain).
  subst body literal. rewrite <- J in V, A |- *.
  destruct (connect_request_body h cl pk s) as (F & M & R & S).
  split; [exact F |]. split; [exact M |]. split; [exact V |].
  split; [exact A |]. split; [exact R | exact S].
Qed.

(** C7. With the string encoder of [encoding/json], the payload of a
    topic check holds the username of the client, the client ID and the
    topic byte for byte, and "true" for a write, "false" for a read, and
    is marshalled to the object with the members username, clientid,
    topic and acc, in this order, each the literal of its field; the acc
    member is the word between quotes.  The literal of a string that is
    valid UTF-8 denotes that string, and the literal of a string of
    plain ASCII bytes is the string between quotes.  The only request
    the check sends is a POST to the ACL host with exactly this body,
    and on an initialized hook it is sent. *)
Theorem acl_request_body_utf8 (h : Hook) (cl : Client.t) (topic : string)
    (write : bool) (s : State) (short : bool) :
  json_string = json_appendString short ->
  let p := acl_payload cl topic write in
  let literal := json_appendString short in
  let acc := if write then "true" else "false" in
  let body :=
    "{" ++ dquote ++ "username" ++ dquote ++ ":"
        ++ literal
             (string_of_list_byte (Client.Username (Client.Props cl)))
    ++ "," ++ dquote ++ "clientid" ++ dquote ++ ":"
        ++ literal (Client.ID cl)
    ++ "," ++ dquote ++ "topic" ++ dquote ++ ":" ++ literal topic
    ++ "," ++ dquote ++ "acc" ++ dquote ++ ":" ++ literal acc
    ++ "}" in
  (list_byte_of_string (ACLCheckPOST.Username p)
     = Client.Username (Client.Props cl) /\
   ACLCheckPOST.ClientID p = Client.ID cl /\
   ACLCheckPOST.Topic p = topic /\
   ACLCheckPOST.ACC p = acc) /\
  json_Marshal (any_ACLCheckPOST p) = inl body /\
  literal acc = dquote ++ acc ++ dquote /\
  (forall f, utf8_ValidString f = true ->
             json_string_value (literal f) = Some f) /\
  (forall f, json_plain f = true -> literal f = dquote ++ f ++ dquote) /\
  (forall res s' req,
     OnACLCheck h cl topic write s = (res, s') ->
     In req (requests_sent (new_events s s')) ->
     Method req = "POST" /\ Body req = bytes_NewBuffer body /\
     exists u, aclhost h = Some u /\ URL req = URL_String u) /\
  (forall u c,
     aclhost h = Some u -> httpClient h = Some c ->
     NewRequest_err http_MethodPost (URL_String u) = None ->
     exists res s',
       OnACLCheck h cl topic write s = (res, s') /\
       requests_sent (new_events s s') =
         [{| Method := "POST"; URL := URL_String u;
             Body := bytes_NewBuffer body |}]).
Proof.
  intros J p literal acc body.
  assert (V : forall f, utf8_ValidString f = true ->
                        json_string_value (literal f) = Some f)
    by (intros f; apply json_appendString_value).
  assert (A : forall f, json_plain f = true ->
                        literal f = dquote ++ f ++ dquote)
    by (intros f; apply json_appendString_plain).
  assert (W : literal acc = dquote ++ acc ++ dquote)
    by (apply A; unfold acc; destruct write; reflexivity).
  subst body literal. rewrite <- J in V, A, W |- *.
  destruct (acl_request_body h cl topic write s) as (F & M & R & S).
  split; [exact F |]. split; [exact M |]. split; [exact W |].
  split; [exact V |]. split; [exact A |]. split; [exact R | exact S].
Qed.

End Encoded.

(** Two connect packets whose passwords are the bytes 0xff and 0xfe,
    neither valid UTF-8: the encoder writes both as the escape of
    U+FFFD, so the two checks marshal and send the same body, and the
    password member denotes U+FFFD, not the password. *)
Lemma connect_body_not_verbatim :
  Packet.Password (Packet.Connect (binary_connect xff))
    <> Packet.Password (Packet.Connect (binary_connect xfe)) /\
  @json_Marshal golang
    (any_ClientCheckPOST (connect_payload alice (binary_connect xff)))
  = @json_Marshal golang
      (any_ClientCheckPOST (connect_payload alice (binary_connect xfe))) /\
  requests_sent
    (new_events golang_start
       (snd (OnConnectAuthenticate golang_Hook alice (binary_connect xff)
               golang_start)))
  = requests_sent
      (new_events golang_start
         (snd (OnConnectAuthenticate golang_Hook alice (binary_connect xfe)
                 golang_start))) /\
  json_string_value (json_appendString true (string_of_list_byte [xff]))
  = Some (string_of_list_byte [xef; xbf; xbd]).
Proof.
  split; [discriminate |]. split; [reflexivity |].
  split; [reflexivity |]. reflexivity.
Qed.

(** Two clients whose usernames are the bytes 0xff and 0xfe: their topic
    checks marshal and send the same body. *)
Lemma acl_body_not_verbatim :
  Client.Username (Client.Props (binary_client xff))
    <> Client.Username (Client.Props (binary_client xfe)) /\
  @json_Marshal golang
    (any_ACLCheckPOST (acl_payload (binary_client xff) "/topic" true))
  = @json_Marshal golang
      (any_ACLCheckPOST (acl_payload (binary_client xfe) "/topic" true)) /\
  requests_sent
    (new_events golang_start
       (snd (OnACLCheck golang_Hook (binary_client xff) "/topic" true
               golang_start)))
  = requests_sent
      (new_events golang_start
         (snd (OnACLCheck golang_Hook (binary_client xfe) "/topic" true
                 golang_start))) /\
  json_string_value (json_appendString true (string_of_list_byte [xff]))
  = Some (string_of_list_byte [xef; xbf; xbd]).
Proof.
  split; [discriminate |]. split; [reflexivity |].
  split; [reflexivity |]. reflexivity.
Qed.

(** A connect check whose password and username need every kind of
    escape: the literal, the string it denotes and the request sent. *)
Lemma connect_request_body_utf8_witness :
  let field := string_of_list_byte escaped_bytes in
  let literal :=
    dquote ++ "p\" ++ dquote ++ "\\" ++ "\n" ++ "\u" ++ "003c"
    ++ string_of_list_byte [xc3; xa9] ++ "\u" ++ "2028" ++ dquote in
  json_appendString true field = literal /\
  json_string_value literal = Some field /\
  requests_sent
    (new_events golang_start
       (snd (OnConnectAuthenticate golang_Hook escaped_client
               escaped_connect golang_start)))
  = [{| Method := "POST";
        URL := "http://clientauthenticationhost.com";
        Body :=
          bytes_NewBuffer
            ("{" ++ dquote ++ "clientid" ++ dquote ++ ":"
                 ++ dquote ++ "sensor-7" ++ dquote
             ++ "," ++ dquote ++ "password" ++ dquote ++ ":" ++ literal
             ++ "," ++ dquote ++ "username" ++ dquote ++ ":" ++ literal
             ++ "}") |}].
Proof.
  intros field literal.
  destruct (connect_request_body_utf8 golang_Hook escaped_client
              escaped_connect golang_start true eq_refl)
    as (_ & _ & V & _ & _ & S).
  split; [reflexivity |]. split.
  - exact (V field eq_refl).
  - destruct (S {| URL_String := "http://clientauthenticationhost.com" |}
                (NewTransport (RoundTripper
                   {| ACLHost := None; SuperUserHost := None;
                      ClientAuthenticationHost := None;
                      RoundTripper :=
                        Some (@CustomRoundTripper golang
                                (fun r w =>
                                   (inl (response 200), (w ++ [r])%list)));
                      Callback := None |}))
                eq_refl eq_refl eq_refl) as (res & s' & E & R).
    rewrite E. simpl snd. rewrite R. reflexivity.
Defined.

(** A topic check for a write and for a read, with a username that needs
    every kind of escape. *)
Lemma acl_request_body_utf8_witness :
  let field := string_of_list_byte escaped_bytes in
  let literal :=
    dquote ++ "p\" ++ dquote ++ "\\" ++ "\n" ++ "\u" ++ "003c"
    ++ string_of_list_byte [xc3; xa9] ++ "\u" ++ "2028" ++ dquote in
  let body (acc : string) :=
    "{" ++ dquote ++ "username" ++ dquote ++ ":" ++ literal
    ++ "," ++ dquote ++ "clientid" ++ dquote ++ ":"
        ++ dquote ++ "sensor-7" ++ dquote
    ++ "," ++ dquote ++ "topic" ++ dquote ++ ":"
        ++ dquote ++ "a/+/b " ++ dquote
    ++ "," ++ dquote ++ "acc" ++ dquote ++ ":"
        ++ dquote ++ acc ++ dquote
    ++ "}" in
  json_string_value literal = Some field /\
  requests_sent
    (new_events golang_start
       (snd (OnACLCheck golang_Hook escaped_client "a/+/b " true
               golang_start)))
  = [{| Method := "POST"; URL := "http://aclhost.com";
        Body := bytes_NewBuffer (body "true") |}] /\
  requests_sent
    (new_events golang_start
       (snd (OnACLCheck golang_Hook escaped_client "a/+/b " false
               golang_start)))
  = [{| Method := "POST"; URL := "http://aclhost.com";
        Body := bytes_NewBuffer (body "false") |}].
Proof.
  intros field literal body.
  set (c := NewTransport (RoundTripper
                {| ACLHost := None; SuperUserHost := None;
                   ClientAuthenticationHost := None;
                   RoundTripper :=
                     Some (@CustomRoundTripper golang
                             (fun r w =>
                                (inl (response 200), (w ++ [r])%list)));
                   Callback := None |})).
  split; [| split].
  - destruct (acl_request_body_utf8 golang_Hook escaped_client "a/+/b "
                true golang_start true eq_refl)
      as (_ & _ & _ & V & _).
    exact (V field eq_refl).
  - destruct (acl_request_body_utf8 golang_Hook escaped_client "a/+/b "
                true golang_start true eq_refl)
      as (_ & _ & _ & _ & _ & _ & S).
    destruct (S {| URL_String := "http://aclhost.com" |} c
                eq_refl eq_refl eq_refl) as (res & s' & E & R).
    rewrite E. simpl snd. rewrite R. reflexivity.
  - destruct (acl_request_body_utf8 golang_Hook escaped_client "a/+/b "
                false golang_start true eq_refl)
      as (_ & _ & _ & _ & _ & _ & S).
    destruct (S {| URL_String := "http://aclhost.com" |} c
                eq_refl eq_refl eq_refl) as (res & s' & E & R).
    rewrite E. simpl snd. rewrite R. reflexivity.
Defined.
